(** * Upload scripts of modelo_humo_fuego: a shallow embedding

    The repository holds four Python scripts that push a local image
    dataset to a remote dataset service through a client library:

    - [img_etiquetas.py]: batch upload of three splits, each image paired
      with an optional YOLO label file;
    - [subir.py]: batch upload of the [*.jpg] entries of three splits;
    - [subir2.py]: upload of one image, driven by command-line arguments,
      ending in a process exit code;
    - [upload.py]: the client's quick-start sample.

    The scripts are embedded as computations over an explicit trace of the
    effects they perform (file-system queries, client calls, printed
    lines).  The file system is a finite tree, the process environment a
    finite map, and the remote client an oracle that answers each call. *)

From stdpp Require Import gmap strings list fin_maps pretty.
From Stdlib Require Import ZArith Ascii.

Local Open Scope string_scope.
Local Open Scope Z_scope.
Local Open Scope list_scope.

Set Default Proof Using "Type".

(** ** Python strings *)

Module Py.

(** [str.lower()], on the ASCII range. *)
Definition lower_ascii (c : ascii) : ascii :=
  let n := nat_of_ascii c in
  if ((65 <=? n) && (n <=? 90))%nat then ascii_of_nat (n + 32) else c.

Fixpoint lower (s : string) : string :=
  match s with
  | "" => ""
  | String c r => String (lower_ascii c) (lower r)
  end.

(** [s.rfind(c)]: the index of the last occurrence of [c], or [-1]. *)
Fixpoint rfind (c : ascii) (s : string) : Z :=
  match s with
  | "" => -1
  | String a r =>
      let i := rfind c r in
      if 0 <=? i then i + 1 else if Ascii.eqb a c then 0 else -1
  end.

(** Slices [s[:n]] and [s[n:]] for [0 <= n]. *)
Fixpoint take (n : nat) (s : string) : string :=
  match n, s with
  | S n', String a r => String a (take n' r)
  | _, _ => ""
  end.

Fixpoint drop (n : nat) (s : string) : string :=
  match n, s with
  | S n', String _ r => drop n' r
  | _, _ => s
  end.

Definition len (s : string) : Z := Z.of_nat (String.length s).

(** Truth value of an [Optional[str]]: [None] and [""] are falsy. *)
Definition truthy (o : option string) : bool :=
  match o with
  | Some s => negb (String.eqb s "")
  | None => false
  end.

(** [a or b] on [Optional[str]] values. *)
Definition or_ (a b : option string) : option string :=
  if truthy a then a else b.

(** [sep.join(l)]. *)
Definition join (sep : string) (l : list string) : string :=
  String.concat sep l.

(** [s.split(sep)] for a one-character separator. *)
Fixpoint split_go (sep : ascii) (cur : string) (s : string) : list string :=
  match s with
  | "" => [String.rev cur]
  | String a r =>
      if Ascii.eqb a sep then String.rev cur :: split_go sep "" r
      else split_go sep (String a cur) r
  end.

Definition split (sep : ascii) (s : string) : list string := split_go sep "" s.

(** [s.rstrip(c)] for one character. *)
Fixpoint rstrip (c : ascii) (s : string) : string :=
  match s with
  | "" => ""
  | String a r =>
      let r' := rstrip c r in
      if String.eqb r' "" && Ascii.eqb a c then "" else String a r'
  end.

End Py.

(** ** pathlib over a finite file-system tree *)

Module pathlib.

(** A relative path is its list of components. *)
Definition path : Type := list string.

(** [Path(s)]: split at ["/"], dropping empty and ["."] components. *)
Definition Path (s : string) : path :=
  List.filter (fun c => negb (String.eqb c "") && negb (String.eqb c "."))
              (Py.split "/" s).

(** [str(p)]. *)
Definition str (p : path) : string :=
  match p with
  | [] => "."
  | _ => Py.join "/" p
  end.

(** [p / c] for a single component [c]. *)
Definition joinpath (p : path) (c : string) : path := (p ++ [c])%list.

(** [p.name]. *)
Definition name (p : path) : string := List.last p "".

(** [PurePath.suffix] and [PurePath.stem] of a final component. *)
Definition suffix (name : string) : string :=
  let i := Py.rfind "." name in
  if (0 <? i) && (i <? Py.len name - 1) then Py.drop (Z.to_nat i) name else "".

Definition stem (name : string) : string :=
  let i := Py.rfind "." name in
  if (0 <? i) && (i <? Py.len name - 1) then Py.take (Z.to_nat i) name else name.

(** The tree below the working directory.  A directory maps each entry
    name to its node, so names are unique within a directory. *)
#[warnings="-register-all"]
Inductive node : Type :=
| File
| Dir (entries : gmap string node).

Fixpoint resolve (n : node) (p : path) : option node :=
  match p with
  | [] => Some n
  | c :: p' =>
      match n with
      | File => None
      | Dir es =>
          match es !! c with
          | Some n' => resolve n' p'
          | None => None
          end
      end
  end.

(** [p.exists()], [p.is_file()], [p.is_dir()]. *)
Definition exists_ (fs : node) (p : path) : bool :=
  match resolve fs p with Some _ => true | None => false end.

Definition is_file (fs : node) (p : path) : bool :=
  match resolve fs p with Some File => true | _ => false end.


(** Entry names of a directory, in the order the directory scan yields
    them. *)
Definition listdir (fs : node) (p : path) : list string :=
  match resolve fs p with
  | Some (Dir es) => (map_to_list es).*1
  | _ => []
  end.

(** [fnmatch] for patterns made of literal characters, [?] and [*]. *)
Fixpoint fnmatch_chars (pat name : list ascii) : bool :=
  match pat with
  | [] => match name with [] => true | _ => false end
  | c :: pat' =>
      if Ascii.eqb c "*" then
        (fix star (n : list ascii) : bool :=
           fnmatch_chars pat' n ||
           match n with [] => false | _ :: n' => star n' end) name
      else
        match name with
        | [] => false
        | a :: name' =>
            (Ascii.eqb c "?" || Ascii.eqb a c) && fnmatch_chars pat' name'
        end
  end.

Definition fnmatch (pat name : string) : bool :=
  fnmatch_chars (String.list_ascii_of_string pat)
                (String.list_ascii_of_string name).

(** An absolute path: its components from the root. *)
Inductive apath : Type := Abs (parts : list string).

Definition parts (q : apath) : list string := let 'Abs l := q in l.

(** [str(q)] and [q.name] for an absolute path. *)
Definition astr (q : apath) : string := "/" +:+ Py.join "/" (parts q).
Definition aname (q : apath) : string := List.last (parts q) "".

(** Whether [Path(s)] starts at the root. *)
Definition is_abs (s : string) : bool := String.prefix "/" s.

(** [os.path.realpath] in a tree without symbolic links: the components
    are followed from [start], [..] steps back one component and stays at
    the root. *)
Definition normalise (start p : path) : path :=
  fold_left (λ acc c, if String.eqb c ".." then removelast acc
                      else (acc ++ [c])%list)
            p start.

End pathlib.

(** ** Effects: traces, exceptions, the remote client *)

Module runtime.

Export pathlib.

(** Values passed as keyword arguments of [project.upload]. *)
Inductive kwval : Type :=
| VStr (s : string)
| VInt (z : Z)
| VStrs (l : list string).

Global Instance kwval_eq_dec : EqDecision kwval.
Proof. solve_decision. Defined.

(** Keyword arguments: a [dict] from argument name to value. *)
Abbreviation kwargs := (gmap string kwval).

(** What [project.upload] returns, as far as lines 171 to 177 of
    subir2.py look at it.  [text] is its [str()].  [RespOther] is an
    answer that is not a [dict].  [RespDict] is a [dict] whose [image]
    entry is absent or a [dict]: [image_link] is what
    [resp.get("image", {}).get("link")] yields and [link] what
    [resp.get("link")] yields ([None] or a value, given by its [str()]).
    [RespImageOther] is a [dict] whose [image] entry is any other value,
    on which [.get] raises [AttributeError] with message [err]. *)
Inductive response : Type :=
| RespOther (text : string)
| RespDict (text : string) (image_link link : option string)
| RespImageOther (text : string) (err : string).

Definition resp_text (r : response) : string :=
  match r with
  | RespOther t | RespDict t _ _ | RespImageOther t _ => t
  end.

(** Exceptions; each derives from [Exception].  [ClientError] stands for
    whatever the client library raises. *)
Inductive exn : Type :=
| RuntimeError (msg : string)
| ValueError (msg : string)
| NotADirectoryError (msg : string)
| FileNotFoundError (msg : string)
| AttributeError (msg : string)
| ClientError (msg : string).

(** [str(e)]. *)
Definition exn_str (e : exn) : string :=
  match e with
  | RuntimeError m | ValueError m | NotADirectoryError m
  | FileNotFoundError m | AttributeError m | ClientError m => m
  end.

(** Observable effects, in the order the process performs them. *)
Inductive event : Type :=
| ELoadDotenv
| EExists (p : path)
| EIsFile (p : path)
| EIterdir (p : path)
| EGlob (p : path) (pattern : string)
| ERoboflow (api_key : option string)
| EWorkspace (slug : option string)
| EProject (slug : option string)
| EUpload (kw : kwargs)
| EStdout (line : string)
| EStderr (line : string).

Abbreviation trace := (list event).

(** The remote client: each call either raises (left, the message of the
    exception) or returns (right).  [upload] may answer differently from
    one call to the next, so it also receives the number of upload calls
    made before. *)
Record client : Type := {
  client_init : option string → string + unit;
  client_workspace : option string → string + string;
  client_project : option string → string + unit;
  client_upload : nat → kwargs → string + response;
}.

(** The process environment before [load_dotenv()], the variables of the
    [.env] file, the file tree from the root [/] (it has no symbolic
    link), the working directory as its components from the root, the home
    directories of the password database (the entry of the current user
    under the empty name) and the remote side. *)
Record world : Type := {
  environ : gmap string string;
  dotenv : gmap string string;
  root : node;
  cwd : path;
  homes : gmap string string;
  remote : client;
}.

(** The tree at the working directory, where relative paths are looked
    up. *)
Definition fs (w : world) : node :=
  match resolve (root w) (cwd w) with
  | Some n => n
  | None => Dir ∅
  end.

(** How a computation ends: it returns, an exception propagates, or
    [sys.exit(code)] unwinds the process ([SystemExit] is not an
    [Exception]). *)
Inductive result (A : Type) : Type :=
| Ret (a : A)
| Raise (e : exn)
| Exit (code : Z).
Global Arguments Ret {A} a.
Global Arguments Raise {A} e.
Global Arguments Exit {A} code.

(** Projections of a trace. *)
Definition uploads (t : trace) : list kwargs :=
  omap (λ e, match e with EUpload kw => Some kw | _ => None end) t.

Definition stdout (t : trace) : list string :=
  omap (λ e, match e with EStdout s => Some s | _ => None end) t.

(** A computation is told how many upload calls the process has made so
    far, and yields how it ends together with the effects it performed,
    in order. *)
Definition M (A : Type) : Type := nat → result A * trace.

Definition ret {A} (a : A) : M A := λ _, (Ret a, []).

Definition bind {A B} (m : M A) (k : A → M B) : M B :=
  λ n, match m n with
       | (Ret a, d) =>
           let '(r, d') := k a (n + length (uploads d))%nat in
           (r, (d ++ d')%list)
       | (Raise e, d) => (Raise e, d)
       | (Exit c, d) => (Exit c, d)
       end.

Declare Scope py_scope.
Delimit Scope py_scope with py.
Notation "x <- m ;; k" := (bind m (λ x, k))
  (at level 100, m at next level, k at level 200, right associativity)
  : py_scope.
Notation "m ;; k" := (bind m (λ _, k))
  (at level 100, k at level 200, right associativity) : py_scope.

Definition emit (e : event) : M unit := λ _, (Ret tt, [e]).

Definition raise {A} (e : exn) : M A := λ _, (Raise e, []).

Definition sys_exit {A} (code : Z) : M A := λ _, (Exit code, []).

(** [try: body except Exception as e: handler(e)]. *)
Definition try_except {A} (body : M A) (handler : exn → M A) : M A :=
  λ n, match body n with
       | (Raise e, d) =>
           let '(r, d') := handler e (n + length (uploads d))%nat in
           (r, (d ++ d')%list)
       | r => r
       end.

(** [for x in xs: body(x)]; [continue] is the body returning. *)
Fixpoint for_ {A} (xs : list A) (body : A → M unit) : M unit :=
  match xs with
  | [] => ret tt
  | x :: xs' => bind (body x) (λ _, for_ xs' body)
  end.

Definition print (s : string) : M unit := emit (EStdout s).
Definition eprint (s : string) : M unit := emit (EStderr s).

Section calls.
Context (w : world).

(** [load_dotenv()] keeps variables already set in the process. *)
Definition load_dotenv : M unit := emit ELoadDotenv.
Definition environ_loaded : gmap string string := environ w ∪ dotenv w.
Definition getenv (k : string) : option string := environ_loaded !! k.
Definition getenv_unloaded (k : string) : option string := environ w !! k.

Definition path_exists (p : path) : M bool :=
  bind (emit (EExists p)) (λ _, ret (exists_ (fs w) p)).

Definition path_is_file (p : path) : M bool :=
  bind (emit (EIsFile p)) (λ _, ret (is_file (fs w) p)).

(** The same tests on an absolute path; the event carries its components
    from the root. *)
Definition apath_exists (q : apath) : M bool :=
  bind (emit (EExists (parts q))) (λ _, ret (exists_ (root w) (parts q))).

Definition apath_is_file (q : apath) : M bool :=
  bind (emit (EIsFile (parts q))) (λ _, ret (is_file (root w) (parts q))).

(** The home directory [os.path.expanduser] finds for a first component
    [c] that starts with [~]: for [~] alone the variable [HOME] when it is
    set, else the entry of the current user; for [~name] the entry of
    [name]. *)
Definition userhome (c : string) : option string :=
  if String.eqb (Py.drop 1 c) "" then
    match getenv "HOME" with
    | Some h => Some h
    | None => homes w !! ""
    end
  else homes w !! Py.drop 1 c.

(** [Path(s).expanduser()]: whether the result starts at the root, and
    its components; [None] when the home directory cannot be determined,
    where [expanduser()] raises [RuntimeError]. *)
Definition expanduser (s : string) : option (bool * path) :=
  match Path s with
  | c :: rest =>
      if negb (is_abs s) && String.prefix "~" c then
        match userhome c with
        | Some h =>
            let homedir :=
              if String.eqb (Py.rstrip "/" h) "" then "/"
              else Py.rstrip "/" h in
            if String.prefix "~" homedir then None
            else Some (is_abs homedir, (Path homedir ++ rest)%list)
        | None => None
        end
      else Some (is_abs s, Path s)
  | [] => Some (is_abs s, Path s)
  end.

(** [p.resolve()]. *)
Definition resolve_path (p : bool * path) : apath :=
  Abs (normalise (if p.1 then [] else cwd w) p.2).

(** [p.iterdir()]: the children of a directory; scanning anything else
    raises. *)
Definition iterdir (p : path) : M (list path) :=
  bind (emit (EIterdir p)) (λ _,
    match resolve (fs w) p with
    | Some (Dir _) => ret (joinpath p <$> listdir (fs w) p)
    | Some File => raise (NotADirectoryError (str p))
    | None => raise (FileNotFoundError (str p))
    end).

(** [p.glob(pattern)] for a one-component pattern: the matching children
    of a directory, nothing for any other path. *)
Definition glob (p : path) (pattern : string) : M (list path) :=
  bind (emit (EGlob p pattern)) (λ _,
    ret (joinpath p <$> List.filter (fnmatch pattern) (listdir (fs w) p))).

Definition call {A} (e : event) (answer : string + A) : M A :=
  bind (emit e) (λ _,
    match answer with
    | inl msg => raise (ClientError msg)
    | inr a => ret a
    end).

Definition Roboflow (api_key : option string) : M unit :=
  call (ERoboflow api_key) (client_init (remote w) api_key).

Definition rf_workspace (slug : option string) : M string :=
  call (EWorkspace slug) (client_workspace (remote w) slug).

Definition workspace_project (slug : option string) : M unit :=
  call (EProject slug) (client_project (remote w) slug).

Definition project_upload (kw : kwargs) : M response :=
  λ n, call (EUpload kw) (client_upload (remote w) n kw) n.
End calls.

End runtime.

(** A line feed, for the ["\n"] of the source's string literals. *)
Definition nl : string := String "010" "".

(** ** img_etiquetas.py *)

Module img_etiquetas.
Import runtime.
Local Open Scope py_scope.

Definition SPLITS : list (string * (string * string)) :=
  [ ("train", ("data/train/images", "data/train/labels"));
    ("valid", ("data/val/images", "data/val/labels"));
    ("test", ("data/test/images", "data/test/labels")) ].

Definition EXTS : gset string :=
  {[ ".jpg"; ".jpeg"; ".png"; ".bmp"; ".webp" ]}.

Section script.
Context (w : world).

(** Body of the inner loop (lines 30 to 41). *)
Definition upload_image (split : string) (lbl_dir img_path : path) : M unit :=
  f <- path_is_file w img_path ;;
  if negb (f && bool_decide (Py.lower (suffix (name img_path)) ∈ EXTS))
  then ret tt
  else
    let label_path := joinpath lbl_dir (stem (name img_path) +:+ ".txt") in
    let kwargs : kwargs :=
      <["image_path" := VStr (str img_path)]>
        (<["split" := VStr split]>
           (<["num_retry_uploads" := VInt 3]> ∅)) in
    has_label <- path_exists w label_path ;;
    let kwargs :=
      if has_label
      then <["annotation_path" := VStr (str label_path)]> kwargs
      else kwargs in
    try_except
      (project_upload w kwargs ;;
       has_label' <- path_exists w label_path ;;
       print ("✅ " +:+ name img_path +:+ "  " +:+
              (if has_label' then "(+ label)" else "(solo imagen)")))
      (λ e, print ("❌ " +:+ name img_path +:+ ": " +:+ exn_str e)).

(** Body of the outer loop (lines 23 to 41). *)
Definition upload_split (s : string * (string * string)) : M unit :=
  let '(split, (img_dir, lbl_dir)) := s in
  let img_dir := Path img_dir in
  let lbl_dir := Path lbl_dir in
  e <- path_exists w img_dir ;;
  if negb e
  then print ("⚠️ No existe " +:+ str img_dir +:+ " (split " +:+ split +:+ ")")
  else
    print (nl +:+ "=== Subiendo " +:+ split +:+
           " con anotaciones YOLO (si existen) ===") ;;
    imgs <- iterdir w img_dir ;;
    for_ imgs (upload_image split lbl_dir).

Definition main : M unit :=
  load_dotenv ;;
  let API_KEY :=
    Py.or_ (getenv w "ROBOFLOW_API_KEY") (getenv w "roboflow_api_key") in
  if negb (Py.truthy API_KEY)
  then raise (RuntimeError "No se encontró ROBOFLOW_API_KEY en el .env")
  else
    Roboflow w API_KEY ;;
    rf_workspace w (Some "deteccion-h92uo") ;;
    workspace_project w (Some "humo_detecter-cuzoe") ;;
    for_ SPLITS upload_split.
End script.

(** The test of line 30: a regular file with a recognised extension. *)
Definition is_asset (fs : node) (img_path : path) : bool :=
  is_file fs img_path &&
  bool_decide (Py.lower (suffix (name img_path)) ∈ EXTS).

(** The label path of line 32. *)
Definition label_path (lbl_dir img_path : path) : path :=
  joinpath lbl_dir (stem (name img_path) +:+ ".txt").

(** The keyword arguments of lines 33 to 35. *)
Definition request (fs : node) (split : string) (lbl_dir img_path : path)
  : kwargs :=
  let kwargs : kwargs :=
    <["image_path" := VStr (str img_path)]>
      (<["split" := VStr split]>
         (<["num_retry_uploads" := VInt 3]> ∅)) in
  if exists_ fs (label_path lbl_dir img_path)
  then <["annotation_path" := VStr (str (label_path lbl_dir img_path))]> kwargs
  else kwargs.

(** The lines of lines 39 and 41. *)
Definition uploaded_line (fs : node) (lbl_dir img_path : path) : string :=
  "✅ " +:+ name img_path +:+ "  " +:+
  (if exists_ fs (label_path lbl_dir img_path)
   then "(+ label)" else "(solo imagen)").

Definition failed_line (img_path : path) (msg : string) : string :=
  "❌ " +:+ name img_path +:+ ": " +:+ msg.

(** The lines of lines 25 and 28. *)
Definition missing_line (split : string) (img_dir : path) : string :=
  "⚠️ No existe " +:+ str img_dir +:+ " (split " +:+ split +:+ ")".

Definition banner (split : string) : string :=
  nl +:+ "=== Subiendo " +:+ split +:+
  " con anotaciones YOLO (si existen) ===".

(** The line printed for an image once the client has answered. *)
Definition outcome (fs : node) (lbl_dir img_path : path)
    (answer : string + response) : string :=
  match answer with
  | inr _ => uploaded_line fs lbl_dir img_path
  | inl msg => failed_line img_path msg
  end.

(** An image together with the upload call made for it and the line
    printed for it, when that call is the [k]-th of the process. *)
Definition item (w : world) (split : string) (lbl_dir : path) (k : nat)
    (x : path * kwargs * string) : Prop :=
  x.1.2 = request (fs w) split lbl_dir x.1.1 ∧
  x.2 = outcome (fs w) lbl_dir x.1.1 (client_upload (remote w) k x.1.2).

(** The same for a run of images over the splits [ss], the first call
    being the [n]-th of the process. *)
Definition items (w : world) (ss : list (string * (string * string)))
    (n : nat) (xs : list (path * kwargs * string)) : Prop :=
  ∀ i x, xs !! i = Some x →
         ∃ s, s ∈ ss ∧ item w s.1 (Path s.2.2) (n + i) x.

(** The images the inner loop uploads from a directory, in scan order. *)
Definition discover (fs : node) (img_dir : path) : list path :=
  List.filter (is_asset fs) (joinpath img_dir <$> listdir fs img_dir).

(** The images the outer loop reaches: those of every split whose image
    path exists and is a directory; the loop ends at a split whose image
    path exists without being a directory, where the scan raises. *)
Fixpoint discovered (fs : node) (ss : list (string * (string * string)))
  : list path :=
  match ss with
  | [] => []
  | (_, (img_dir, _)) :: ss' =>
      match resolve fs (Path img_dir) with
      | None => discovered fs ss'
      | Some (Dir _) => (discover fs (Path img_dir) ++ discovered fs ss')%list
      | Some File => []
      end
  end.

End img_etiquetas.

(** ** subir.py *)

Module subir.
Import runtime.
Local Open Scope py_scope.

Definition splits : list (string * string) :=
  [ ("train", "data/train/images");
    ("valid", "data/val/images");
    ("test", "data/test/images") ].

Section script.
Context (w : world).

(** Body of the inner loop (lines 35 to 43). *)
Definition upload_image (split : string) (img_file : path) : M unit :=
  try_except
    (project_upload w
       (<["image_path" := VStr (str img_file)]>
          (<["split" := VStr split]>
             (<["num_retry_uploads" := VInt 3]> ∅))) ;;
     print ("✅ Subida: " +:+ name img_file))
    (λ e, print ("❌ Error con " +:+ name img_file +:+ ": " +:+ exn_str e)).

(** Body of the outer loop (lines 28 to 43). *)
Definition upload_split (s : string * string) : M unit :=
  let '(split, folder) := s in
  let folder_path := Path folder in
  e <- path_exists w folder_path ;;
  if negb e
  then print ("⚠️ No existe la carpeta: " +:+ str folder_path)
  else
    print (nl +:+ "=== Subiendo imágenes desde " +:+ str folder_path +:+
           " al split '" +:+ split +:+ "' ===") ;;
    imgs <- glob w folder_path "*.jpg" ;;
    for_ imgs (upload_image split).

Definition main : M unit :=
  load_dotenv ;;
  let api_key :=
    Py.or_ (getenv w "ROBOFLOW_API_KEY") (getenv w "roboflow_api_key") in
  if negb (Py.truthy api_key)
  then raise (ValueError
    "No se encontró la API Key. Define ROBOFLOW_API_KEY en tu archivo .env")
  else
    Roboflow w api_key ;;
    rf_workspace w (Some "deteccion-h92uo") ;;
    workspace_project w (Some "humo_detecter-cuzoe") ;;
    for_ splits upload_split.
End script.

(** The keyword arguments of lines 37 to 39. *)
Definition request (split : string) (img_file : path) : kwargs :=
  <["image_path" := VStr (str img_file)]>
    (<["split" := VStr split]>
       (<["num_retry_uploads" := VInt 3]> ∅)).

(** The lines of lines 41 and 43. *)
Definition uploaded_line (img_file : path) : string :=
  "✅ Subida: " +:+ name img_file.

Definition failed_line (img_file : path) (msg : string) : string :=
  "❌ Error con " +:+ name img_file +:+ ": " +:+ msg.

(** The lines of lines 30 and 33. *)
Definition missing_line (folder_path : path) : string :=
  "⚠️ No existe la carpeta: " +:+ str folder_path.

Definition banner (split : string) (folder_path : path) : string :=
  nl +:+ "=== Subiendo imágenes desde " +:+ str folder_path +:+
  " al split '" +:+ split +:+ "' ===".

(** The line printed for an entry once the client has answered. *)
Definition outcome (img_file : path) (answer : string + response) : string :=
  match answer with
  | inr _ => uploaded_line img_file
  | inl msg => failed_line img_file msg
  end.

(** An entry together with the upload call made for it and the line
    printed for it, when that call is the [k]-th of the process. *)
Definition item (w : world) (split : string) (k : nat)
    (x : path * kwargs * string) : Prop :=
  x.1.2 = request split x.1.1 ∧
  x.2 = outcome x.1.1 (client_upload (remote w) k x.1.2).

(** The same for a run of entries over the splits [ss], the first call
    being the [n]-th of the process. *)
Definition items (w : world) (ss : list (string * string))
    (n : nat) (xs : list (path * kwargs * string)) : Prop :=
  ∀ i x, xs !! i = Some x → ∃ s, s ∈ ss ∧ item w s.1 (n + i) x.

(** The entries the inner loop uploads from a folder, in scan order. *)
Definition discover (fs : node) (folder : path) : list path :=
  joinpath folder <$> List.filter (fnmatch "*.jpg") (listdir fs folder).

(** The entries the outer loop reaches. *)
Definition discovered (fs : node) (ss : list (string * string)) : list path :=
  flat_map (λ s, discover fs (Path s.2)) ss.

End subir.

(** ** subir2.py

    The client library is taken to be installed (otherwise lines 22 to 26
    exit with status [1] before [main] runs). *)

Module subir2.
Import runtime.
Local Open Scope py_scope.

(** The choices of [--split] (line 67). *)
Inductive choice : Type := Train | Valid | Test.

Definition choice_str (c : choice) : string :=
  match c with Train => "train" | Valid => "valid" | Test => "test" end.

(** The options of a command line that [argparse] accepts: each flag is
    present or not; [--retries], [--seq-num] and [--seq-size] hold what
    [type=int] made of their values, [--split] one of its choices, and
    [--image] is required. *)
Record argv : Type := {
  flag_workspace : option string;
  flag_project : option string;
  flag_image : string;
  flag_batch_name : option string;
  flag_split : option choice;
  flag_tags : option (list string);
  flag_retries : option Z;
  flag_seq_num : option Z;
  flag_seq_size : option Z;
}.

(** A command line: one that asks for help, one that [argparse] refuses
    (no [--image], an unknown option, a value that is no integer, a split
    that is no choice), each with the text [argparse] writes, or one that
    it accepts. *)
Inductive command_line : Type :=
| Help (text : string)
| Refused (usage message : string)
| Accepted (a : argv).

(** The [argparse.Namespace] that [parse_args] returns. *)
Record Namespace : Type := {
  workspace : option string;
  project : option string;
  image : string;
  batch_name : option string;
  split : option string;
  tags : option (list string);
  retries : option Z;
  sequence_number : option Z;
  sequence_size : option Z;
}.

(** [str(n)] for an [int]. *)
Definition str_int (n : Z) : string := pretty n.

(** [n or alt] inside an f-string: [None] and [0] are falsy. *)
Definition int_or (n : option Z) (alt : string) : string :=
  match n with
  | Some z => if z =? 0 then alt else str_int z
  | None => alt
  end.

Definition nonempty_list (l : option (list string)) : bool :=
  match l with
  | Some (_ :: _) => true
  | _ => false
  end.

(** The dictionary of lines 145 to 153, then without its [None] entries
    (line 155). *)
Definition upload_kwargs (args : Namespace) (image_path : apath) : kwargs :=
  let upload_kwargs : gmap string (option kwval) :=
    <["image_path" := Some (VStr (astr image_path))]>
    (<["num_retry_uploads" := VInt <$> retries args]>
    (<["batch_name" := VStr <$> batch_name args]>
    (<["split" := VStr <$> split args]>
    (<["tag_names" := VStrs <$> tags args]>
    (<["sequence_number" := VInt <$> sequence_number args]>
    (<["sequence_size" := VInt <$> sequence_size args]> ∅)))))) in
  omap id upload_kwargs.

Section script.
Context (w : world).

(** The namespace of an accepted command line.  Defaults are read from
    the process environment when [parse_args] runs, that is before
    [load_dotenv()]. *)
Definition parse_args (a : argv) : Namespace :=
  {| workspace :=
       match flag_workspace a with
       | Some s => Some s
       | None => getenv_unloaded w "ROBOFLOW_WORKSPACE"
       end;
     project :=
       match flag_project a with
       | Some s => Some s
       | None => getenv_unloaded w "ROBOFLOW_PROJECT"
       end;
     image := flag_image a;
     batch_name := flag_batch_name a;
     split := choice_str <$> flag_split a;
     tags := flag_tags a;
     retries := Some (default 3 (flag_retries a));
     sequence_number := flag_seq_num a;
     sequence_size := flag_seq_size a |}.

Definition get_api_key : M (option string) :=
  load_dotenv ;;
  let api :=
    Py.or_ (getenv w "ROBOFLOW_API_KEY") (getenv w "roboflow_api_key") in
  ret api.

(** [main] once [parser.parse_args()] has returned. *)
Definition main (a : argv) : M unit :=
  let args := parse_args a in
  api_key <- get_api_key ;;
  if negb (Py.truthy api_key) then
    eprint ("ERROR: No se encontró la API key." +:+ nl +:+
            "Define ROBOFLOW_API_KEY en tu entorno o en un archivo .env") ;;
    sys_exit 2
  else if negb (Py.truthy (workspace args)) then
    eprint "ERROR: Debes indicar --workspace o setear ROBOFLOW_WORKSPACE en .env" ;;
    sys_exit 2
  else if negb (Py.truthy (project args)) then
    eprint "ERROR: Debes indicar --project o setear ROBOFLOW_PROJECT en .env" ;;
    sys_exit 2
  else
    match expanduser w (image args) with
    | None => raise (RuntimeError "Could not determine home directory.")
    | Some expanded =>
    let image_path := resolve_path w expanded in
    missing <-
      (e <- apath_exists w image_path ;;
       if negb e then ret true
       else f <- apath_is_file w image_path ;; ret (negb f)) ;;
    if (missing : bool) then
      eprint ("ERROR: La ruta de imagen no existe o no es un archivo: " +:+
              astr image_path) ;;
      sys_exit 3
    else
      try_except (Roboflow w api_key)
        (λ e, eprint ("ERROR: No se pudo inicializar Roboflow: " +:+
                      exn_str e) ;;
              sys_exit 4) ;;
      try_except (rf_workspace w (workspace args) ;; ret tt)
        (λ e, eprint ("ERROR: No se encontró el workspace '" +:+
                      default "" (workspace args) +:+ "': " +:+ exn_str e) ;;
              sys_exit 5) ;;
      try_except (workspace_project w (project args))
        (λ e, eprint ("ERROR: No se encontró el proyecto '" +:+
                      default "" (project args) +:+ "' en el workspace '" +:+
                      default "" (workspace args) +:+ "': " +:+ exn_str e) ;;
              sys_exit 6) ;;
      let upload_kwargs := upload_kwargs args image_path in
      print "=== Subiendo imagen a Roboflow ===" ;;
      print ("- Workspace: " +:+ default "" (workspace args)) ;;
      print ("- Proyecto:  " +:+ default "" (project args)) ;;
      print ("- Imagen:    " +:+ aname image_path) ;;
      (if Py.truthy (batch_name args)
       then print ("- Batch:     " +:+ default "" (batch_name args))
       else ret tt) ;;
      (if Py.truthy (split args)
       then print ("- Split:     " +:+ default "" (split args))
       else ret tt) ;;
      (if nonempty_list (tags args)
       then print ("- Tags:      " +:+ Py.join ", " (default [] (tags args)))
       else ret tt) ;;
      (match sequence_number args with
       | Some n =>
           print ("- Secuencia: " +:+ str_int n +:+ "/" +:+
                  int_or (sequence_size args) "¿desconocido?")
       | None => ret tt
       end) ;;
      try_except
        (resp <- project_upload w upload_kwargs ;;
         print (nl +:+ "✅ Subida completada con éxito.") ;;
         print ("Respuesta del servidor: " +:+ resp_text resp) ;;
         link <-
           match resp with
           | RespDict _ image_link link => ret (Py.or_ image_link link)
           | RespImageOther _ err => raise (AttributeError err)
           | RespOther _ => ret None
           end ;;
         (if Py.truthy link
          then print ("URL de la imagen en Roboflow: " +:+ default "" link)
          else ret tt) ;;
         sys_exit 0)
        (λ e, eprint (nl +:+ "❌ Error al subir la imagen: " +:+ exn_str e) ;;
              sys_exit 7)
    end.

(** The script from its command line: [parser.parse_args()] (line 96,
    reached from line 100) prints the help and exits with status [0], or
    writes the usage and the error and exits with status [2], or returns
    and [main] goes on. *)
Definition cli (c : command_line) : M unit :=
  match c with
  | Help text => print text ;; sys_exit 0
  | Refused usage message => eprint usage ;; eprint message ;; sys_exit 2
  | Accepted a => main a
  end.
End script.

End subir2.

(** ** upload.py *)

Module upload.
Import runtime.
Local Open Scope py_scope.

Definition workspaceId : string := "my-workspace".
Definition projectId : string := "my-project".

Section script.
Context (w : world).

Definition main : M unit :=
  load_dotenv ;;
  Roboflow w (getenv w "roboflow_api_key") ;;
  ws <- rf_workspace w None ;;
  print ws ;;
  rf_workspace w (Some workspaceId) ;;
  workspace_project w (Some projectId) ;;
  project_upload w (<["image_path" := VStr "UPLOAD_IMAGE.jpg"]> ∅) ;;
  project_upload w
    (<["image_path" := VStr "UPLOAD_IMAGE.jpg"]>
    (<["batch_name" := VStr "YOUR_BATCH_NAME"]>
    (<["split" := VStr "train"]>
    (<["num_retry_uploads" := VInt 3]>
    (<["tag_names" := VStrs ["YOUR_TAG_NAME"]]>
    (<["sequence_number" := VInt 99]>
    (<["sequence_size" := VInt 100]> ∅))))))) ;;
  ret tt.
End script.

End upload.

(** ** Running a script *)

Import runtime.

(** A script starts before any upload call. *)
Definition run (m : M unit) : result unit * trace := m 0%nat.

(** The status the process exits with: [0] when the script runs to its
    end, [1] when an exception propagates, the given code on
    [sys.exit]. *)
Definition exit_status (r : result unit) : Z :=
  match r with
  | Ret _ => 0
  | Raise _ => 1
  | Exit c => c
  end.

(** The credential every script but [upload.py] reads: the primary
    variable, or else its lower-case alternate. *)
Definition credential (w : world) : option string :=
  Py.or_ (getenv w "ROBOFLOW_API_KEY") (getenv w "roboflow_api_key").

(** ** Printed lines *)

(** A line that reports one asset as uploaded, or as failed. *)
Definition reported_uploaded (line : string) : bool := String.prefix "✅" line.
Definition reported_failed (line : string) : bool := String.prefix "❌" line.

Definition outcome_line (line : string) : bool :=
  reported_uploaded line || reported_failed line.

(** A line about a whole split: its banner, or the warning that its
    folder is missing. *)
Definition split_line (line : string) : bool :=
  String.prefix "⚠️ No existe" line ||
  String.prefix (nl +:+ "=== Subiendo") line.

Definition count (f : string → bool) (out : list string) : nat :=
  length (List.filter f out).

(** The output closes with a line that is neither about one asset nor
    about one split, as a summary of the run would be. *)
Definition ends_with_summary (out : list string) : Prop :=
  ∃ body line, out = (body ++ [line])%list ∧
               outcome_line line = false ∧ split_line line = false.

(** The events that are an upload call or the line printed for one. *)
Definition call_or_outcome (e : event) : bool :=
  match e with
  | EUpload _ => true
  | EStdout line => outcome_line line
  | _ => false
  end.

(** How many upload calls a trace holds for one image path. *)
Definition attempts (image_path : string) (t : trace) : nat :=
  length (List.filter
            (λ kw, bool_decide (kw !! "image_path" = Some (VStr image_path)))
            (uploads t)).

(** Assets served one after the other: for each one its upload call,
    then the line that reports it. *)
Definition served (xs : list (path * kwargs * string)) : trace :=
  flat_map (λ x, [EUpload x.1.2; EStdout x.2]) xs.

(** The events before the split loop of a batch script. *)
Definition setup_event (e : event) : bool :=
  match e with
  | ELoadDotenv | ERoboflow _ | EWorkspace _ | EProject _ => true
  | _ => false
  end.

(** The events that touch the file system below the working directory. *)
Definition fs_event (e : event) : bool :=
  match e with
  | EExists _ | EIsFile _ | EIterdir _ | EGlob _ _ => true
  | _ => false
  end.

(** The events that call the remote client. *)
Definition client_event (e : event) : bool :=
  match e with
  | ERoboflow _ | EWorkspace _ | EProject _ | EUpload _ => true
  | _ => false
  end.

(** ** Sample worlds *)

(** A directory from a list of entries. *)
Definition dir (l : list (string * node)) : node := Dir (list_to_map l).

(** Two images and one label in [train], an empty [val], no [test]. *)
Definition sample_fs : node :=
  dir [("data",
        dir [("train",
              dir [("images", dir [("a.jpg", File); ("b.png", File)]);
                   ("labels", dir [("a.txt", File)])]);
             ("val", dir [("images", dir [])])])].

(** A client that accepts every call, one whose uploads all fail. *)
Definition accepting : client :=
  {| client_init := λ _, inr tt;
     client_workspace := λ _, inr "workspace";
     client_project := λ _, inr tt;
     client_upload := λ _ _, inr (RespOther "None") |}.

Definition rejecting_uploads : client :=
  {| client_init := λ _, inr tt;
     client_workspace := λ _, inr "workspace";
     client_project := λ _, inr tt;
     client_upload := λ _ _, inl "timeout" |}.

Definition sample_world (c : client) : world :=
  {| environ := {[ "ROBOFLOW_API_KEY" := "key" ]};
     dotenv := ∅;
     root := sample_fs;
     cwd := [];
     homes := ∅;
     remote := c |}.

(** The same tree with no credential in the process or in [.env]. *)
Definition no_credential_world : world :=
  {| environ := ∅; dotenv := ∅; root := sample_fs; cwd := []; homes := ∅;
     remote := accepting |}.

(** A command line for [subir2.py]. *)
Definition sample_argv : subir2.argv :=
  {| subir2.flag_workspace := Some "my-workspace";
     subir2.flag_project := Some "my-project";
     subir2.flag_image := "data/train/images/a.jpg";
     subir2.flag_batch_name := None;
     subir2.flag_split := Some subir2.Train;
     subir2.flag_tags := None;
     subir2.flag_retries := None;
     subir2.flag_seq_num := None;
     subir2.flag_seq_size := None |}.

(** ** Further vocabulary and sample worlds *)

(** What the process writes to its error stream. *)
Definition stderr (t : trace) : list string :=
  omap (λ e, match e with EStderr s => Some s | _ => None end) t.

(** A tree where the image path of [train] is a regular file, and [val]
    holds one image. *)
Definition file_at_train_fs : node :=
  dir [("data",
        dir [("train", dir [("images", File)]);
             ("val", dir [("images", dir [("c.jpg", File)])])])].

Definition file_at_train_world : world :=
  {| environ := {[ "ROBOFLOW_API_KEY" := "key" ]};
     dotenv := ∅;
     root := file_at_train_fs;
     cwd := [];
     homes := ∅;
     remote := accepting |}.

(** A client whose workspace lookup fails. *)
Definition no_workspace : client :=
  {| client_init := λ _, inr tt;
     client_workspace := λ _, inl "not found";
     client_project := λ _, inr tt;
     client_upload := λ _ _, inr (RespOther "None") |}.

(** A world that names the workspace and the project in [.env] only. *)
Definition dotenv_only_world : world :=
  {| environ := {[ "ROBOFLOW_API_KEY" := "key" ]};
     dotenv := {[ "ROBOFLOW_WORKSPACE" := "my-workspace";
                  "ROBOFLOW_PROJECT" := "my-project" ]};
     root := sample_fs;
     cwd := [];
     homes := ∅;
     remote := accepting |}.

(** A command line that gives the image alone. *)
Definition image_only_argv : subir2.argv :=
  {| subir2.flag_workspace := None;
     subir2.flag_project := None;
     subir2.flag_image := "data/train/images/a.jpg";
     subir2.flag_batch_name := None;
     subir2.flag_split := None;
     subir2.flag_tags := None;
     subir2.flag_retries := None;
     subir2.flag_seq_num := None;
     subir2.flag_seq_size := None |}.

(** A command line with empty and zero values: no tag after [--tags], an
    empty batch name, sequence number and size [0]. *)
Definition empty_values_argv : subir2.argv :=
  {| subir2.flag_workspace := Some "my-workspace";
     subir2.flag_project := Some "my-project";
     subir2.flag_image := "data/train/images/a.jpg";
     subir2.flag_batch_name := Some "";
     subir2.flag_split := None;
     subir2.flag_tags := Some [];
     subir2.flag_retries := Some (-1);
     subir2.flag_seq_num := Some 0;
     subir2.flag_seq_size := Some 0 |}.

(** A name made of dots only (the empty name included). *)
Definition dots_only (s : string) : bool :=
  forallb (Ascii.eqb ".") (String.list_ascii_of_string s).

(** A client whose upload answers with a dictionary that has no [image]
    link and a link of its own. *)
Definition linking : client :=
  {| client_init := λ _, inr tt;
     client_workspace := λ _, inr "workspace";
     client_project := λ _, inr tt;
     client_upload := λ _ _,
       inr (RespDict "{'link': 'https://app/x'}" None (Some "https://app/x")) |}.

(** The image each upload call of a trace names. *)
Definition image_paths (t : trace) : list (option kwval) :=
  (λ kw : kwargs, kw !! "image_path") <$> uploads t.

(** ** What the split loops are to do *)

Definition answers {A} (answer : string + A) : bool :=
  match answer with inr _ => true | inl _ => false end.


(** What the inner loop of img_etiquetas.py is to do with the images it
    takes: for each one in order, the image, the upload call made for it
    and the line printed for it, the first call being the [n]-th of the
    process. *)
Fixpoint img_serve (w : world) (split : string) (lbl_dir : path)
    (imgs : list path) (n : nat) : list (path * kwargs * string) :=
  match imgs with
  | [] => []
  | p :: imgs' =>
      (p, img_etiquetas.request (fs w) split lbl_dir p,
       img_etiquetas.outcome (fs w) lbl_dir p
         (client_upload (remote w) n
            (img_etiquetas.request (fs w) split lbl_dir p)))
      :: img_serve w split lbl_dir imgs' (S n)
  end.


Fixpoint subir_serve (w : world) (split : string) (imgs : list path)
    (n : nat) : list (path * kwargs * string) :=
  match imgs with
  | [] => []
  | p :: imgs' =>
      (p, subir.request split p,
       subir.outcome p (client_upload (remote w) n (subir.request split p)))
      :: subir_serve w split imgs' (S n)
  end.







(** ** The exit codes of subir2.py *)

(** The checks [main] makes before the upload, as a decision list over
    what the command line, the environment, the file tree and the client
    give: the status of the first check that fails, or [None] when all
    pass.  A workspace or project is missing when it is given neither by
    its flag nor in the process environment, or is empty; the image must
    be a regular file once [~] is expanded and the path made absolute. *)
Definition early_exit (w : world) (a : subir2.argv) : option Z :=
  let given (flag : option string) (var : string) : option string :=
    match flag with Some s => Some s | None => environ w !! var end in
  let ws := given (subir2.flag_workspace a) "ROBOFLOW_WORKSPACE" in
  let pj := given (subir2.flag_project a) "ROBOFLOW_PROJECT" in
  if negb (Py.truthy (credential w)) then Some 2
  else if negb (Py.truthy ws) then Some 2
  else if negb (Py.truthy pj) then Some 2
  else
    match expanduser w (subir2.flag_image a) with
    | None => Some 1
    | Some p =>
        if negb (is_file (root w) (parts (resolve_path w p))) then Some 3
        else if negb (answers (client_init (remote w) (credential w)))
        then Some 4
        else if negb (answers (client_workspace (remote w) ws)) then Some 5
        else if negb (answers (client_project (remote w) pj)) then Some 6
        else None
    end.

(** The status after the upload call, from its answer. *)
Definition upload_exit (answer : string + response) : Z :=
  match answer with
  | inl _ => 7
  | inr (RespImageOther _ _) => 7
  | inr _ => 0
  end.

(** A client whose upload answers with a dictionary whose [image] entry
    is a string. *)
Definition image_not_dict : client :=
  {| client_init := λ _, inr tt;
     client_workspace := λ _, inr "workspace";
     client_project := λ _, inr tt;
     client_upload := λ _ _,
       inr (RespImageOther "{'image': 'https://app/x.jpg'}"
              "'str' object has no attribute 'get'") |}.

(** * Properties *)

(** ** Strings and path names *)

Section string_facts.
Implicit Types (s r n : string) (c a : ascii).

Lemma append_cons a s r : String a s +:+ r = String a (s +:+ r).
Proof. reflexivity. Qed.

Lemma append_empty_l r : "" +:+ r = r.
Proof. reflexivity. Qed.

Lemma length_append s r :
  String.length (s +:+ r) = (String.length s + String.length r)%nat.
Proof.
  induction s as [|a s IH]; [done|].
  rewrite append_cons. simpl. by rewrite IH.
Qed.

(** The last occurrence of [c] in [s +:+ String c r] when [r] has none. *)
Lemma rfind_append c s r :
  Py.rfind c r = -1 → Py.rfind c (s +:+ String c r) = Py.len s.
Proof.
  intros Hr. unfold Py.len. induction s as [|a s IH].
  - rewrite append_empty_l. simpl. rewrite Hr. simpl.
    by rewrite Ascii.eqb_refl.
  - rewrite append_cons. simpl Py.rfind. rewrite IH.
    destruct (0 <=? Z.of_nat (String.length s)) eqn:E;
      [simpl String.length; lia|lia].
Qed.

Lemma take_append s r : Py.take (String.length s) (s +:+ r) = s.
Proof.
  induction s as [|a s IH]; [by destruct r|].
  rewrite append_cons. simpl. by rewrite IH.
Qed.

Lemma drop_append s r : Py.drop (String.length s) (s +:+ r) = r.
Proof.
  induction s as [|a s IH]; [by destruct r|]. by rewrite append_cons.
Qed.







End string_facts.

(** ** Traces *)


Lemma stdout_app (d d' : trace) : stdout (d ++ d') = stdout d ++ stdout d'.
Proof. apply omap_app. Qed.

Lemma filter_app {A} (f : A → bool) (l l' : list A) :
  List.filter f (l ++ l') = List.filter f l ++ List.filter f l'.
Proof. apply List.filter_app. Qed.

Lemma served_app xs ys : served (xs ++ ys) = served xs ++ served ys.
Proof. unfold served. apply flat_map_app. Qed.

Lemma uploads_served xs : uploads (served xs) = xs.*1.*2.
Proof. induction xs as [|x xs IH]; [done|]. simpl. by rewrite IH. Qed.

Lemma stdout_served xs : stdout (served xs) = xs.*2.
Proof. induction xs as [|x xs IH]; [done|]. simpl. by rewrite IH. Qed.

Lemma uploads_call_or_outcome d :
  uploads (List.filter call_or_outcome d) = uploads d.
Proof.
  induction d as [|e d IH]; [done|].
  destruct e; simpl; rewrite ?IH; try done.
  destruct (outcome_line line); simpl; by rewrite ?IH.
Qed.

Lemma stdout_call_or_outcome d :
  stdout (List.filter call_or_outcome d) = List.filter outcome_line (stdout d).
Proof.
  induction d as [|e d IH]; [done|].
  destruct e; simpl; rewrite ?IH; try done.
  destruct (outcome_line line); simpl; by rewrite ?IH.
Qed.

(** The calls of a trace whose calls and outcome lines are [served xs]. *)
Lemma served_uploads d xs :
  List.filter call_or_outcome d = served xs → uploads d = xs.*1.*2.
Proof.
  intros H. by rewrite <- uploads_call_or_outcome, H, uploads_served.
Qed.

Lemma served_outcomes d xs :
  List.filter call_or_outcome d = served xs →
  List.filter outcome_line (stdout d) = xs.*2.
Proof.
  intros H. by rewrite <- stdout_call_or_outcome, H, stdout_served.
Qed.

Lemma served_length d xs :
  List.filter call_or_outcome d = served xs → length (uploads d) = length xs.
Proof. intros H. by rewrite (served_uploads d xs H), !length_fmap. Qed.

Lemma for_cons {A} (x : A) xs body n :
  for_ (x :: xs) body n =
    match body x n with
    | (Ret _, d) =>
        let '(r, d') := for_ xs body (n + length (uploads d))%nat in
        (r, d ++ d')
    | (Raise e, d) => (Raise e, d)
    | (Exit c, d) => (Exit c, d)
    end.
Proof. reflexivity. Qed.

(** One step of symbolic execution: unfold the primitives and reduce. *)
Ltac py_step :=
  repeat (progress
    (unfold bind, try_except, path_exists, path_is_file, iterdir, glob,
       project_upload, Roboflow, rf_workspace, workspace_project, call,
       emit, print, eprint, ret, raise, sys_exit, load_dotenv;
     simpl)).

(** ** The inner loop of img_etiquetas.py *)

Section img_inner.
Import img_etiquetas.
Context (w : world) (split : string) (lbl_dir : path).

Lemma img_skip p n :
  is_asset (fs w) p = false →
  upload_image w split lbl_dir p n = (Ret tt, [EIsFile p]).
Proof.
  unfold is_asset, upload_image. intros H. py_step. by rewrite H.
Qed.

Lemma img_asset p n :
  is_asset (fs w) p = true →
  upload_image w split lbl_dir p n =
    (Ret tt,
     [EIsFile p; EExists (label_path lbl_dir p);
      EUpload (request (fs w) split lbl_dir p)] ++
     match client_upload (remote w) n (request (fs w) split lbl_dir p) with
     | inr _ => [EExists (label_path lbl_dir p)]
     | inl _ => []
     end ++
     [EStdout (outcome (fs w) lbl_dir p
                 (client_upload (remote w) n
                    (request (fs w) split lbl_dir p)))]).
Proof.
  unfold is_asset, upload_image. intros H. py_step. rewrite H. simpl.
  unfold request, outcome, uploaded_line, label_path.
  replace (n + 0 + 0)%nat with n by lia.
  destruct (exists_ (fs w) _) eqn:E;
    destruct (client_upload _ _ _) as [msg|resp]; simpl; try reflexivity.
  all: rewrite E; reflexivity.
Qed.

Lemma outcome_is_outcome_line p answer :
  outcome_line (outcome (fs w) lbl_dir p answer) = true.
Proof. by destruct answer. Qed.

Lemma img_inner_loop imgs n :
  ∃ d xs,
    for_ imgs (upload_image w split lbl_dir) n = (Ret tt, d) ∧
    List.filter call_or_outcome d = served xs ∧
    xs.*1.*1 = List.filter (is_asset (fs w)) imgs ∧
    (∀ i x, xs !! i = Some x → item w split lbl_dir (n + i) x) ∧
    Forall (λ l, outcome_line l = true) (stdout d).
Proof.
  revert n. induction imgs as [|p imgs IH]; intros n.
  { exists [], []. by repeat split. }
  rewrite for_cons.
  destruct (is_asset (fs w) p) eqn:Hp.
  - rewrite (img_asset p n Hp).
    set (kw := request (fs w) split lbl_dir p).
    set (lbl := label_path lbl_dir p).
    remember (outcome (fs w) lbl_dir p (client_upload (remote w) n kw))
      as line eqn:Hl.
    assert (Hline : outcome_line line = true)
      by (subst line; apply outcome_is_outcome_line).
    destruct (IH (n + 1)%nat) as (d & xs & Hfor & Hd & Hxs & Hit & Hout).
    exists ([EIsFile p; EExists lbl; EUpload kw] ++
            match client_upload (remote w) n kw with
            | inr _ => [EExists lbl]
            | inl _ => []
            end ++ [EStdout line] ++ d), ((p, kw, line) :: xs).
    split; [|split; [|split; [|split]]].
    + replace (length (uploads _)) with 1%nat
        by (by destruct (client_upload (remote w) n kw)).
      rewrite Hfor. by rewrite <- !app_assoc.
    + destruct (client_upload (remote w) n kw); simpl;
        by rewrite Hline, Hd.
    + simpl. rewrite Hp. simpl. by f_equal.
    + intros [|i] x Hx.
      * injection Hx as <-. rewrite Nat.add_0_r. by split.
      * replace (n + S i)%nat with (n + 1 + i)%nat by lia. by apply Hit.
    + rewrite !stdout_app.
      destruct (client_upload (remote w) n kw); simpl; by constructor.
  - rewrite (img_skip p n Hp).
    destruct (IH (n + length (uploads [EIsFile p]))%nat)
      as (d & xs & -> & Hd & Hxs & Hit & Hout).
    exists (EIsFile p :: d), xs. simpl. rewrite Hp.
    split; [done|]. split; [done|]. split; [done|]. split; [|done].
    intros i x Hx. specialize (Hit i x Hx). simpl in Hit.
    by rewrite Nat.add_0_r in Hit.
Qed.
End img_inner.

(** ** The inner loop of subir.py *)

Section subir_inner.
Import subir.
Context (w : world) (split : string).

Lemma subir_image p n :
  upload_image w split p n =
    (Ret tt,
     [EUpload (request split p);
      EStdout (outcome p (client_upload (remote w) n (request split p)))]).
Proof.
  unfold upload_image, request, outcome. py_step.
  destruct (client_upload _ _ _) as [msg|resp]; reflexivity.
Qed.

Lemma subir_outcome_line p answer : outcome_line (outcome p answer) = true.
Proof. by destruct answer. Qed.

Lemma subir_inner_loop imgs n :
  ∃ d xs,
    for_ imgs (upload_image w split) n = (Ret tt, d) ∧
    List.filter call_or_outcome d = served xs ∧
    xs.*1.*1 = imgs ∧
    (∀ i x, xs !! i = Some x → item w split (n + i) x) ∧
    Forall (λ l, outcome_line l = true) (stdout d).
Proof.
  revert n. induction imgs as [|p imgs IH]; intros n.
  { exists [], []. by repeat split. }
  rewrite for_cons, subir_image.
  set (kw := request split p).
  remember (outcome p (client_upload (remote w) n kw)) as line eqn:Hl.
  assert (Hline : outcome_line line = true)
    by (subst line; apply subir_outcome_line).
  destruct (IH (n + 1)%nat) as (d & xs & Hfor & Hd & Hxs & Hit & Hout).
  exists ([EUpload kw; EStdout line] ++ d), ((p, kw, line) :: xs).
  split; [|split; [|split; [|split]]].
  - simpl length. by rewrite Hfor.
  - simpl. by rewrite Hline, Hd.
  - simpl. by f_equal.
  - intros [|i] x Hx.
    + injection Hx as <-. rewrite Nat.add_0_r. by split.
    + replace (n + S i)%nat with (n + 1 + i)%nat by lia. by apply Hit.
  - simpl. by constructor.
Qed.
End subir_inner.

(** ** The split loops *)

Section img_outer.
Import img_etiquetas.
Context (w : world).

Lemma img_split_missing split img_dir lbl_dir n :
  resolve (fs w) (Path img_dir) = None →
  upload_split w (split, (img_dir, lbl_dir)) n =
    (Ret tt,
     [EExists (Path img_dir);
      EStdout (missing_line split (Path img_dir))]).
Proof.
  intros H. unfold upload_split. py_step. unfold exists_. by rewrite H.
Qed.

Lemma img_split_file split img_dir lbl_dir n :
  resolve (fs w) (Path img_dir) = Some File →
  upload_split w (split, (img_dir, lbl_dir)) n =
    (Raise (NotADirectoryError (str (Path img_dir))),
     [EExists (Path img_dir); EStdout (banner split);
      EIterdir (Path img_dir)]).
Proof.
  intros H. unfold upload_split. py_step. unfold exists_. by rewrite H.
Qed.

Lemma img_split_dir split img_dir lbl_dir es n :
  resolve (fs w) (Path img_dir) = Some (Dir es) →
  upload_split w (split, (img_dir, lbl_dir)) n =
    ((for_ (joinpath (Path img_dir) <$> listdir (fs w) (Path img_dir))
           (upload_image w split (Path lbl_dir)) n).1,
     [EExists (Path img_dir); EStdout (banner split);
      EIterdir (Path img_dir)] ++
     (for_ (joinpath (Path img_dir) <$> listdir (fs w) (Path img_dir))
           (upload_image w split (Path lbl_dir)) n).2).
Proof.
  intros H. unfold upload_split. py_step. unfold exists_. rewrite H.
  simpl. replace (n + 0 + 0 + 0)%nat with n by lia.
  destruct (for_ _ _ n) as [r d]. reflexivity.
Qed.

Lemma img_lines split p :
  outcome_line (banner split) = false ∧ split_line (banner split) = true ∧
  outcome_line (missing_line split p) = false ∧
  split_line (missing_line split p) = true.
Proof. by repeat split. Qed.

Lemma img_outer_loop ss n :
  ∃ r d xs,
    for_ ss (upload_split w) n = (r, d) ∧
    List.filter call_or_outcome d = served xs ∧
    xs.*1.*1 = discovered (fs w) ss ∧
    items w ss n xs ∧
    Forall (λ l, outcome_line l = true ∨ split_line l = true) (stdout d) ∧
    ((∀ s, s ∈ ss → resolve (fs w) (Path s.2.1) ≠ Some File) → r = Ret tt).
Proof.
  revert n. induction ss as [|[split [img_dir lbl_dir]] ss IH]; intros n.
  { exists (Ret tt), [], []. by repeat split. }
  rewrite for_cons.
  destruct (resolve (fs w) (Path img_dir)) as [[|es]|] eqn:Hr.
  - rewrite (img_split_file _ _ _ _ Hr).
    eexists _, _, []. split; [reflexivity|]. simpl. rewrite Hr.
    split; [done|]. split; [done|]. split; [done|]. split.
    + constructor; [by right|done].
    + intros H. destruct (H (split, (img_dir, lbl_dir))); [left|done].
  - rewrite (img_split_dir _ _ _ _ _ Hr).
    destruct (img_inner_loop w split (Path lbl_dir)
                (joinpath (Path img_dir) <$> listdir (fs w) (Path img_dir)) n)
      as (d1 & xs1 & -> & Hd1 & Hxs1 & Hit1 & Hout1).
    simpl. rewrite (served_length _ _ Hd1).
    destruct (IH (n + length xs1)%nat)
      as (r & d2 & xs2 & -> & Hd2 & Hxs2 & Hit2 & Hout2 & Hr2).
    eexists _, _, (xs1 ++ xs2). split; [reflexivity|].
    simpl. rewrite Hr. rewrite filter_app, served_app, Hd1, Hd2.
    rewrite !fmap_app, Hxs1, Hxs2, stdout_app.
    split; [done|]. split; [done|]. split; [|split].
    + intros i x Hx. apply lookup_app_Some in Hx as [Hx|[Hi Hx]].
      * exists (split, (img_dir, lbl_dir)). split; [left|by apply Hit1].
      * destruct (Hit2 _ _ Hx) as (s & Hs & Hitem).
        exists s. split; [by right|].
        by replace (n + i)%nat with (n + length xs1 + (i - length xs1))%nat
          by lia.
    + constructor; [by right|]. apply Forall_app. split; [|done].
      eapply Forall_impl; [exact Hout1|]. by left.
    + intros H. apply Hr2. intros s Hs. apply H. by right.
  - rewrite (img_split_missing _ _ _ _ Hr). simpl.
    destruct (IH (n + 0)%nat)
      as (r & d2 & xs2 & -> & Hd2 & Hxs2 & Hit2 & Hout2 & Hr2).
    eexists _, _, xs2. split; [reflexivity|].
    simpl. rewrite Hr. split; [done|]. split; [done|]. split; [|split].
    + intros i x Hx. destruct (Hit2 _ _ Hx) as (s & Hs & Hitem).
      exists s. split; [by right|]. by rewrite Nat.add_0_r in Hitem.
    + constructor; [by right|done].
    + intros H. apply Hr2. intros s Hs. apply H. by right.
Qed.
End img_outer.

Section subir_outer.
Import subir.
Context (w : world).

Lemma subir_lines split p :
  outcome_line (banner split p) = false ∧ split_line (banner split p) = true ∧
  outcome_line (missing_line p) = false ∧ split_line (missing_line p) = true.
Proof. by repeat split. Qed.

Lemma subir_split_missing split folder n :
  exists_ (fs w) (Path folder) = false →
  upload_split w (split, folder) n =
    (Ret tt, [EExists (Path folder); EStdout (missing_line (Path folder))]).
Proof. intros H. unfold upload_split. py_step. by rewrite H. Qed.

Lemma subir_split_present split folder n :
  exists_ (fs w) (Path folder) = true →
  upload_split w (split, folder) n =
    ((for_ (discover (fs w) (Path folder)) (upload_image w split) n).1,
     [EExists (Path folder); EStdout (banner split (Path folder));
      EGlob (Path folder) "*.jpg"] ++
     (for_ (discover (fs w) (Path folder)) (upload_image w split) n).2).
Proof.
  intros H. unfold upload_split. py_step. rewrite H. simpl.
  replace (n + 0 + 0 + 0)%nat with n by lia. unfold discover.
  destruct (for_ _ _ n) as [r d]. reflexivity.
Qed.

Lemma discover_missing folder :
  exists_ (fs w) folder = false → discover (fs w) folder = [].
Proof.
  unfold exists_, discover, listdir.
  by destruct (resolve (fs w) folder).
Qed.

Lemma subir_outer_loop ss n :
  ∃ d xs,
    for_ ss (upload_split w) n = (Ret tt, d) ∧
    List.filter call_or_outcome d = served xs ∧
    xs.*1.*1 = discovered (fs w) ss ∧
    items w ss n xs ∧
    Forall (λ l, outcome_line l = true ∨ split_line l = true) (stdout d).
Proof.
  revert n. induction ss as [|[split folder] ss IH]; intros n.
  { exists [], []. by repeat split. }
  rewrite for_cons. unfold discovered. simpl flat_map.
  fold (discovered (fs w) ss).
  destruct (exists_ (fs w) (Path folder)) eqn:He.
  - rewrite (subir_split_present _ _ _ He).
    destruct (subir_inner_loop w split (discover (fs w) (Path folder)) n)
      as (d1 & xs1 & -> & Hd1 & Hxs1 & Hit1 & Hout1).
    simpl. rewrite (served_length _ _ Hd1).
    destruct (IH (n + length xs1)%nat)
      as (d2 & xs2 & -> & Hd2 & Hxs2 & Hit2 & Hout2).
    eexists _, (xs1 ++ xs2). split; [reflexivity|].
    simpl. rewrite filter_app, served_app, Hd1, Hd2.
    rewrite !fmap_app, Hxs1, Hxs2, stdout_app.
    split; [done|]. split; [done|]. split.
    + intros i x Hx. apply lookup_app_Some in Hx as [Hx|[Hi Hx]].
      * exists (split, folder). split; [left|by apply Hit1].
      * destruct (Hit2 _ _ Hx) as (s & Hs & Hitem).
        exists s. split; [by right|].
        by replace (n + i)%nat with (n + length xs1 + (i - length xs1))%nat
          by lia.
    + constructor; [by right|]. apply Forall_app. split; [|done].
      eapply Forall_impl; [exact Hout1|]. by left.
  - rewrite (subir_split_missing _ _ _ He). simpl.
    rewrite (discover_missing _ He).
    destruct (IH (n + 0)%nat) as (d2 & xs2 & -> & Hd2 & Hxs2 & Hit2 & Hout2).
    eexists _, xs2. split; [reflexivity|].
    simpl. split; [done|]. split; [done|]. split.
    + intros i x Hx. destruct (Hit2 _ _ Hx) as (s & Hs & Hitem).
      exists s. split; [by right|]. by rewrite Nat.add_0_r in Hitem.
    + constructor; [by right|done].
Qed.
End subir_outer.

(** ** The batch scripts as a whole *)

Section batch_main.
Context (w : world).

(** Both batch scripts share their opening: the credential test, then
    the client, the workspace and the project, then the split loop. *)
Lemma batch_shape (e : exn) (ws pj : option string) (loop : M unit) :
  ∃ r pre d,
    run (bind load_dotenv (λ _,
           if negb (Py.truthy (credential w)) then raise e
           else bind (Roboflow w (credential w)) (λ _,
                bind (rf_workspace w ws) (λ _,
                bind (workspace_project w pj) (λ _, loop))))) = (r, pre ++ d) ∧
    Forall (λ e, setup_event e = true) pre ∧
    (d = [] ∨ loop 0%nat = (r, d)).
Proof.
  unfold run. destruct (Py.truthy (credential w)) eqn:Hk.
  2:{ eexists _, [ELoadDotenv], []. py_step.
      repeat split; [by repeat constructor|by left]. }
  py_step.
  destruct (client_init (remote w) _) as [m1|[]].
  { eexists _, [ELoadDotenv; ERoboflow (credential w)], []. simpl.
    repeat split; [by repeat constructor|by left]. }
  simpl. destruct (client_workspace (remote w) _) as [m2|ws'].
  { eexists _, [ELoadDotenv; ERoboflow (credential w); EWorkspace ws], []. simpl.
    repeat split; [by repeat constructor|by left]. }
  simpl. destruct (client_project (remote w) _) as [m3|[]].
  { eexists _, [ELoadDotenv; ERoboflow (credential w); EWorkspace ws; EProject pj], [].
    simpl. repeat split; [by repeat constructor|by left]. }
  simpl. destruct (loop 0%nat) as [r d] eqn:Hl.
  exists r, [ELoadDotenv; ERoboflow (credential w); EWorkspace ws; EProject pj], d.
  split; [by destruct r|]. split; [by repeat constructor|by right].
Qed.

Lemma img_main_shape :
  ∃ r pre d,
    run (img_etiquetas.main w) = (r, pre ++ d) ∧
    Forall (λ e, setup_event e = true) pre ∧
    (d = [] ∨ for_ img_etiquetas.SPLITS (img_etiquetas.upload_split w) 0%nat
               = (r, d)).
Proof. apply batch_shape. Qed.

Lemma subir_main_shape :
  ∃ r pre d,
    run (subir.main w) = (r, pre ++ d) ∧
    Forall (λ e, setup_event e = true) pre ∧
    (d = [] ∨ for_ subir.splits (subir.upload_split w) 0%nat = (r, d)).
Proof. apply batch_shape. Qed.
End batch_main.

(** ** Paths *)




Lemma name_joinpath (p : path) (a : string) : name (joinpath p a) = a.
Proof. unfold name, joinpath. apply List.last_last. Qed.

Lemma resolve_app (fs : node) (p q : path) :
  resolve fs (p ++ q) =
    match resolve fs p with Some n => resolve n q | None => None end.
Proof.
  revert fs. induction p as [|c p IH]; intros fs; [done|].
  simpl. destruct fs as [|es]; [done|]. destruct (es !! c); [apply IH|done].
Qed.

(** An entry of a directory resolves to the node the directory gives it. *)
Lemma resolve_entry (fs : node) (p : path) (es : gmap string node) (a : string) :
  resolve fs p = Some (Dir es) → resolve fs (joinpath p a) = es !! a.
Proof.
  intros H. unfold joinpath. rewrite resolve_app, H. simpl.
  by destruct (es !! a).
Qed.

(** ** Upload requests *)

Lemma img_request_lookup (fs : node) (split : string) (lbl_dir p : path) :
  let kw := img_etiquetas.request fs split lbl_dir p in
  kw !! "image_path" = Some (VStr (str p)) ∧
  kw !! "split" = Some (VStr split) ∧
  kw !! "num_retry_uploads" = Some (VInt 3) ∧
  kw !! "annotation_path" =
    (if exists_ fs (img_etiquetas.label_path lbl_dir p)
     then Some (VStr (str (img_etiquetas.label_path lbl_dir p))) else None) ∧
  dom kw ⊆ {[ "image_path"; "split"; "num_retry_uploads"; "annotation_path" ]} ∧
  kw !! "batch_name" = None ∧ kw !! "tag_names" = None ∧
  kw !! "sequence_number" = None ∧ kw !! "sequence_size" = None.
Proof.
  unfold img_etiquetas.request.
  destruct (exists_ fs _); simpl; repeat split;
    rewrite ?lookup_insert_eq, ?lookup_insert_ne, ?lookup_empty
      by discriminate;
    try reflexivity; rewrite ?dom_insert_L, dom_empty_L;
    try (intros k; rewrite !elem_of_union, !elem_of_singleton, elem_of_empty;
         tauto).
Qed.

Lemma subir_request_lookup (split : string) (p : path) :
  let kw := subir.request split p in
  kw !! "image_path" = Some (VStr (str p)) ∧
  kw !! "split" = Some (VStr split) ∧
  kw !! "num_retry_uploads" = Some (VInt 3) ∧
  dom kw = {[ "image_path"; "split"; "num_retry_uploads" ]} ∧
  kw !! "batch_name" = None ∧ kw !! "tag_names" = None ∧
  kw !! "sequence_number" = None ∧ kw !! "sequence_size" = None.
Proof.
  unfold subir.request. simpl. repeat split;
    rewrite ?lookup_insert_eq, ?lookup_insert_ne, ?lookup_empty
      by discriminate;
    reflexivity.
Qed.


(** ** Glob patterns *)

Section fnmatch_facts.
Implicit Types (pat n : list ascii).

(** A pattern without wildcards matches itself only. *)
Lemma fnmatch_literal pat n :
  Forall (λ c, Ascii.eqb c "*" = false ∧ Ascii.eqb c "?" = false) pat →
  fnmatch_chars pat n = true ↔ n = pat.
Proof.
  intros Hpat. revert n.
  induction Hpat as [|c pat [H1 H2] _ IH]; intros n; simpl.
  { by destruct n. }
  rewrite H1, H2. destruct n as [|a n]; [done|]. simpl.
  rewrite andb_true_iff, IH, Ascii.eqb_eq. split.
  - by intros [-> ->].
  - by intros [= -> ->].
Qed.

(** A leading [*] matches any prefix. *)
Lemma fnmatch_star pat n :
  fnmatch_chars ("*"%char :: pat) n = true ↔
    ∃ pre rest, n = pre ++ rest ∧ fnmatch_chars pat rest = true.
Proof.
  simpl. induction n as [|a n IH].
  - rewrite orb_false_r. split.
    + intros H. by exists [], [].
    + intros (pre & rest & Hn & H). symmetry in Hn.
      apply app_eq_nil in Hn as [_ ->]. done.
  - rewrite orb_true_iff, IH. split.
    + intros [H|(pre & rest & -> & H)].
      * by exists [], (a :: n).
      * by exists (a :: pre), rest.
    + intros (pre & rest & Hn & H). destruct pre as [|b pre].
      * left. simpl in Hn. by subst rest.
      * right. injection Hn as -> ->. by exists pre, rest.
Qed.

Lemma chars_append (s r : string) :
  String.list_ascii_of_string (s +:+ r) =
    String.list_ascii_of_string s ++ String.list_ascii_of_string r.
Proof.
  induction s as [|a s IH]; [done|]. rewrite append_cons. simpl.
  by rewrite IH.
Qed.

(** The pattern of subir.py matches the names that end in [.jpg]. *)
Lemma fnmatch_jpg (f : string) :
  fnmatch "*.jpg" f = true ↔ ∃ pre, f = pre +:+ ".jpg".
Proof.
  unfold fnmatch.
  change (String.list_ascii_of_string "*.jpg")
    with ("*"%char :: String.list_ascii_of_string ".jpg").
  rewrite fnmatch_star. split.
  - intros (pre & rest & Hn & H).
    apply fnmatch_literal in H; [|by repeat constructor]. subst rest.
    exists (String.string_of_list_ascii pre).
    rewrite <- (String.string_of_list_ascii_of_string f), Hn.
    rewrite <- (String.list_ascii_of_string_of_list_ascii pre) at 1.
    rewrite <- chars_append.
    by rewrite String.string_of_list_ascii_of_string.
  - intros [pre ->].
    exists (String.list_ascii_of_string pre),
           (String.list_ascii_of_string ".jpg").
    split; [apply chars_append|].
    apply fnmatch_literal; [by repeat constructor|done].
Qed.
End fnmatch_facts.

(** ** Directory listings *)

Lemma listdir_NoDup (fs : node) (p : path) : NoDup (listdir fs p).
Proof.
  unfold listdir. destruct (resolve fs p) as [[|es]|]; try constructor.
  apply NoDup_fst_map_to_list.
Qed.

Lemma listdir_elem (fs : node) (p : path) (es : gmap string node) (f : string) :
  resolve fs p = Some (Dir es) → f ∈ listdir fs p ↔ is_Some (es !! f).
Proof.
  intros H. unfold listdir. rewrite H. rewrite list_elem_of_fmap. split.
  - intros ([f' n] & -> & Hin). apply elem_of_map_to_list in Hin. by eexists.
  - intros [n Hn]. exists (f, n). split; [done|].
    by apply elem_of_map_to_list.
Qed.

Lemma joinpath_inj (p : path) : Inj (=) (=) (joinpath p).
Proof.
  intros a b H. unfold joinpath in H. apply app_inv_head in H. by injection H.
Qed.

Lemma elem_of_filter_bool {A} (f : A → bool) (l : list A) (x : A) :
  x ∈ List.filter f l ↔ f x = true ∧ x ∈ l.
Proof. rewrite !list_elem_of_In, List.filter_In. tauto. Qed.

Lemma filter_true {A} (f : A → bool) (l : list A) :
  Forall (λ x, f x = true) l → List.filter f l = l.
Proof. induction 1 as [|x l Hx _ IH]; [done|]. simpl. by rewrite Hx, IH. Qed.

(** What img_etiquetas.py takes from a directory. *)
Lemma img_discover_spec (fs : node) (dir : path) (es : gmap string node) :
  resolve fs dir = Some (Dir es) →
  NoDup (img_etiquetas.discover fs dir) ∧
  ∀ p, p ∈ img_etiquetas.discover fs dir ↔
       ∃ f, p = joinpath dir f ∧ es !! f = Some File ∧
            Py.lower (suffix f) ∈ img_etiquetas.EXTS.
Proof.
  intros H. unfold img_etiquetas.discover. split.
  { apply NoDup_ListNoDup, List.NoDup_filter, NoDup_ListNoDup.
    apply NoDup_fmap; [apply joinpath_inj|]. apply listdir_NoDup. }
  intros p. rewrite elem_of_filter_bool, list_elem_of_fmap.
  unfold img_etiquetas.is_asset, is_file. split.
  - intros [Hp (f & -> & Hf)]. exists f. split; [done|].
    rewrite (resolve_entry _ _ _ _ H), name_joinpath in Hp.
    apply andb_prop in Hp as [Hp1 Hp2]. apply bool_decide_eq_true in Hp2.
    split; [|done]. by destruct (es !! f) as [[|?]|].
  - intros (f & -> & Hf & Hext). split.
    + rewrite (resolve_entry _ _ _ _ H), name_joinpath, Hf. simpl.
      by apply bool_decide_eq_true.
    + exists f. split; [done|]. apply (listdir_elem _ _ _ _ H). by eexists.
Qed.

(** What subir.py takes from a folder. *)
Lemma subir_discover_spec (fs : node) (dir : path) (es : gmap string node) :
  resolve fs dir = Some (Dir es) →
  NoDup (subir.discover fs dir) ∧
  ∀ p, p ∈ subir.discover fs dir ↔
       ∃ f pre, p = joinpath dir f ∧ is_Some (es !! f) ∧ f = pre +:+ ".jpg".
Proof.
  intros H. unfold subir.discover. split.
  { apply NoDup_fmap; [apply joinpath_inj|].
    apply NoDup_ListNoDup, List.NoDup_filter, NoDup_ListNoDup.
    apply listdir_NoDup. }
  intros p. rewrite list_elem_of_fmap. split.
  - intros (f & -> & Hf). apply elem_of_filter_bool in Hf as [Hm Hf].
    apply fnmatch_jpg in Hm as [pre ->]. eexists _, pre.
    split; [done|]. split; [|done]. by apply (listdir_elem _ _ _ _ H).
  - intros (f & pre & -> & Hf & Hpre). exists f. split; [done|].
    apply elem_of_filter_bool. split.
    + apply fnmatch_jpg. by exists pre.
    + by apply (listdir_elem _ _ _ _ H).
Qed.

Lemma EXTS_spec (e : string) :
  e ∈ img_etiquetas.EXTS ↔
  e = ".jpg" ∨ e = ".jpeg" ∨ e = ".png" ∨ e = ".bmp" ∨ e = ".webp".
Proof.
  unfold img_etiquetas.EXTS.
  rewrite !elem_of_union, !elem_of_singleton. tauto.
Qed.

(** ** Whole runs of the batch scripts *)

Lemma setup_silent (pre : trace) :
  Forall (λ e, setup_event e = true) pre →
  List.filter call_or_outcome pre = [] ∧ stdout pre = [] ∧ uploads pre = [].
Proof.
  induction 1 as [|e pre He _ (IH1 & IH2 & IH3)]; [done|].
  destruct e; try discriminate; simpl; by rewrite ?IH1, ?IH2, ?IH3.
Qed.

Lemma img_run (w : world) :
  ∃ xs,
    List.filter call_or_outcome (run (img_etiquetas.main w)).2 = served xs ∧
    img_etiquetas.items w img_etiquetas.SPLITS 0 xs ∧
    Forall (λ l, outcome_line l = true ∨ split_line l = true)
           (stdout (run (img_etiquetas.main w)).2).
Proof.
  destruct (img_main_shape w) as (r & pre & d & -> & Hpre & Hd).
  destruct (setup_silent pre Hpre) as (Hp1 & Hp2 & Hp3).
  simpl. rewrite filter_app, stdout_app, Hp1, Hp2. simpl.
  destruct Hd as [->|Hd].
  - exists []. by repeat split.
  - destruct (img_outer_loop w img_etiquetas.SPLITS 0)
      as (r' & d' & xs & Hfor & Hd' & _ & Hit & Hout & _).
    rewrite Hd in Hfor. injection Hfor as <- <-. by exists xs.
Qed.

Lemma subir_run (w : world) :
  ∃ xs,
    List.filter call_or_outcome (run (subir.main w)).2 = served xs ∧
    subir.items w subir.splits 0 xs ∧
    Forall (λ l, outcome_line l = true ∨ split_line l = true)
           (stdout (run (subir.main w)).2).
Proof.
  destruct (subir_main_shape w) as (r & pre & d & -> & Hpre & Hd).
  destruct (setup_silent pre Hpre) as (Hp1 & Hp2 & Hp3).
  simpl. rewrite filter_app, stdout_app, Hp1, Hp2. simpl.
  destruct Hd as [->|Hd].
  - exists []. by repeat split.
  - destruct (subir_outer_loop w subir.splits 0)
      as (d' & xs & Hfor & Hd' & _ & Hit & Hout).
    rewrite Hd in Hfor. injection Hfor as -> ->. by exists xs.
Qed.

(** ** Counting reported outcomes *)

Lemma count_app (f : string → bool) (l l' : list string) :
  count f (l ++ l') = (count f l + count f l')%nat.
Proof. unfold count. by rewrite filter_app, length_app. Qed.







(** ** Missing splits and failed uploads *)

(** C5. Whatever the client answers to each call, the inner loop of
    either batch script runs to its end: every image it takes gets its own
    upload call, directly followed by the line that reports it as
    uploaded when that call returned and as failed when it raised, and
    then the next image is served. *)
Theorem failed_upload_keeps_going (w : world) (split : string)
    (lbl_dir : path) (imgs : list path) (n : nat) :
  (∃ d xs,
     for_ imgs (img_etiquetas.upload_image w split lbl_dir) n = (Ret tt, d) ∧
     List.filter call_or_outcome d = served xs ∧
     xs.*1.*1 = List.filter (img_etiquetas.is_asset (fs w)) imgs ∧
     ∀ i x, xs !! i = Some x → img_etiquetas.item w split lbl_dir (n + i) x) ∧
  (∃ d xs,
     for_ imgs (subir.upload_image w split) n = (Ret tt, d) ∧
     List.filter call_or_outcome d = served xs ∧
     xs.*1.*1 = imgs ∧
     ∀ i x, xs !! i = Some x → subir.item w split (n + i) x).
Proof.
  split.
  - destruct (img_inner_loop w split lbl_dir imgs n)
      as (d & xs & H1 & H2 & H3 & H4 & _). by exists d, xs.
  - destruct (subir_inner_loop w split imgs n)
      as (d & xs & H1 & H2 & H3 & H4 & _). by exists d, xs.
Qed.


(** ** Reporting *)

Lemma no_summary_of_lines (out : list string) :
  Forall (λ l, outcome_line l = true ∨ split_line l = true) out →
  ¬ ends_with_summary out.
Proof.
  intros H (body & line & -> & Ho & Hs).
  rewrite Forall_app, Forall_singleton in H.
  destruct H as [_ [H|H]]; [rewrite Ho in H|rewrite Hs in H]; discriminate.
Qed.

(** C9, as the scripts have it.  In a run of either batch script every
    upload call is directly followed by the line that reports that asset
    as uploaded or as failed, before the next call; each printed line is
    about one asset or about one split, and the output does not close
    with a summary. *)
Theorem outcomes_reported_without_summary (w : world) :
  (∃ xs,
     List.filter call_or_outcome (run (img_etiquetas.main w)).2 = served xs ∧
     img_etiquetas.items w img_etiquetas.SPLITS 0 xs ∧
     Forall (λ l, outcome_line l = true ∨ split_line l = true)
            (stdout (run (img_etiquetas.main w)).2) ∧
     ¬ ends_with_summary (stdout (run (img_etiquetas.main w)).2)) ∧
  (∃ xs,
     List.filter call_or_outcome (run (subir.main w)).2 = served xs ∧
     subir.items w subir.splits 0 xs ∧
     Forall (λ l, outcome_line l = true ∨ split_line l = true)
            (stdout (run (subir.main w)).2) ∧
     ¬ ends_with_summary (stdout (run (subir.main w)).2)).
Proof.
  split.
  - destruct (img_run w) as (xs & H1 & H2 & H3).
    exists xs. repeat split; try done. by apply no_summary_of_lines.
  - destruct (subir_run w) as (xs & H1 & H2 & H3).
    exists xs. repeat split; try done. by apply no_summary_of_lines.
Qed.


(** C9 as stated fails: with both uploads refused, the output of
    img_etiquetas.py ends with the warning about the missing [test] split;
    no summary follows. *)
Lemma no_final_summary :
  stdout (run (img_etiquetas.main (sample_world rejecting_uploads))).2 =
    [ img_etiquetas.banner "train";
      "❌ a.jpg: timeout";
      "❌ b.png: timeout";
      img_etiquetas.banner "valid";
      "⚠️ No existe data/test/images (split test)" ] ∧
  ¬ ends_with_summary
      (stdout (run (img_etiquetas.main (sample_world rejecting_uploads))).2).
Proof.
  split; [vm_compute; reflexivity|].
  apply no_summary_of_lines. destruct (img_run (sample_world rejecting_uploads))
    as (_ & _ & _ & H). exact H.
Qed.

(** ** The split loops, exactly *)

Lemma img_serve_unique (w : world) (split : string) (lbl_dir : path)
    (xs : list (path * kwargs * string)) (n : nat) :
  (∀ i x, xs !! i = Some x → img_etiquetas.item w split lbl_dir (n + i) x) →
  xs = img_serve w split lbl_dir xs.*1.*1 n.
Proof.
  revert n. induction xs as [|[[p kw] l] xs IH]; intros n H; [reflexivity|].
  simpl. destruct (H 0%nat _ eq_refl) as [Hkw Hl]. simpl in Hkw, Hl.
  rewrite Nat.add_0_r in Hl. subst kw. rewrite Hl at 1. f_equal.
  apply IH. intros i x Hx. specialize (H (S i) x Hx).
  by rewrite Nat.add_succ_r in H.
Qed.

Lemma subir_serve_unique (w : world) (split : string)
    (xs : list (path * kwargs * string)) (n : nat) :
  (∀ i x, xs !! i = Some x → subir.item w split (n + i) x) →
  xs = subir_serve w split xs.*1.*1 n.
Proof.
  revert n. induction xs as [|[[p kw] l] xs IH]; intros n H; [reflexivity|].
  simpl. destruct (H 0%nat _ eq_refl) as [Hkw Hl]. simpl in Hkw, Hl.
  rewrite Nat.add_0_r in Hl. subst kw. rewrite Hl at 1. f_equal.
  apply IH. intros i x Hx. specialize (H (S i) x Hx).
  by rewrite Nat.add_succ_r in H.
Qed.



(** The inner loops, exactly. *)
Lemma img_inner_exact (w : world) (split : string) (lbl_dir : path)
    (imgs : list path) (n : nat) :
  ∃ d,
    for_ imgs (img_etiquetas.upload_image w split lbl_dir) n = (Ret tt, d) ∧
    List.filter call_or_outcome d =
      served (img_serve w split lbl_dir
                (List.filter (img_etiquetas.is_asset (fs w)) imgs) n) ∧
    stdout d =
      (img_serve w split lbl_dir
         (List.filter (img_etiquetas.is_asset (fs w)) imgs) n).*2.
Proof.
  destruct (img_inner_loop w split lbl_dir imgs n)
    as (d & xs & Hfor & Hd & Hxs & Hit & Hout).
  exists d. split; [exact Hfor|].
  rewrite <- Hxs, <- (img_serve_unique w split lbl_dir xs n Hit).
  split; [exact Hd|].
  by rewrite <- (served_outcomes _ _ Hd), (filter_true _ _ Hout).
Qed.

Lemma subir_inner_exact (w : world) (split : string) (imgs : list path)
    (n : nat) :
  ∃ d,
    for_ imgs (subir.upload_image w split) n = (Ret tt, d) ∧
    List.filter call_or_outcome d = served (subir_serve w split imgs n) ∧
    stdout d = (subir_serve w split imgs n).*2.
Proof.
  destruct (subir_inner_loop w split imgs n)
    as (d & xs & Hfor & Hd & Hxs & Hit & Hout).
  exists d. split; [exact Hfor|].
  rewrite <- Hxs, <- (subir_serve_unique w split xs n Hit).
  split; [exact Hd|].
  by rewrite <- (served_outcomes _ _ Hd), (filter_true _ _ Hout).
Qed.












Lemma img_serve_length w split lbl_dir imgs n :
  length (img_serve w split lbl_dir imgs n) = length imgs.
Proof.
  revert n. induction imgs as [|p imgs IH]; intros n; simpl; by rewrite ?IH.
Qed.

Lemma subir_serve_length w split imgs n :
  length (subir_serve w split imgs n) = length imgs.
Proof.
  revert n. induction imgs as [|p imgs IH]; intros n; simpl; by rewrite ?IH.
Qed.













(** ** What an upload call carries *)


(** ** Counting reported outcomes *)




(** ** Label matching (img_etiquetas.py) *)



(** ** Discovery *)

(** C8, as the scripts have it.  From a split whose image path is a
    directory, img_etiquetas.py takes each regular file whose suffix,
    lower-cased, is one of [.jpg], [.jpeg], [.png], [.bmp], [.webp], once
    and only those: the calls and the lines of the split are those of
    these images, after the banner.  subir.py takes each entry whose name
    ends in [.jpg] as written, once and only those. *)
Theorem discovery_per_script (w : world) (split img_dir lbl_dir : string)
    (es : gmap string node) (n : nat) :
  resolve (fs w) (Path img_dir) = Some (Dir es) →
  (∀ e, e ∈ img_etiquetas.EXTS ↔
        e = ".jpg" ∨ e = ".jpeg" ∨ e = ".png" ∨ e = ".bmp" ∨ e = ".webp") ∧
  (∃ d ps,
     img_etiquetas.upload_split w (split, (img_dir, lbl_dir)) n = (Ret tt, d) ∧
     List.filter call_or_outcome d =
       served (img_serve w split (Path lbl_dir) ps n) ∧
     stdout d = img_etiquetas.banner split
                :: (img_serve w split (Path lbl_dir) ps n).*2 ∧
     NoDup ps ∧
     ∀ p, p ∈ ps ↔
          ∃ f, p = joinpath (Path img_dir) f ∧ es !! f = Some File ∧
               Py.lower (suffix f) ∈ img_etiquetas.EXTS) ∧
  (∃ d ps,
     subir.upload_split w (split, img_dir) n = (Ret tt, d) ∧
     List.filter call_or_outcome d = served (subir_serve w split ps n) ∧
     stdout d = subir.banner split (Path img_dir)
                :: (subir_serve w split ps n).*2 ∧
     NoDup ps ∧
     ∀ p, p ∈ ps ↔
          ∃ f pre, p = joinpath (Path img_dir) f ∧ is_Some (es !! f) ∧
                   f = pre +:+ ".jpg").
Proof.
  intros Hr. split; [apply EXTS_spec|]. split.
  - rewrite (img_split_dir w _ _ _ _ _ Hr).
    destruct (img_inner_exact w split (Path lbl_dir)
                (joinpath (Path img_dir) <$> listdir (fs w) (Path img_dir)) n)
      as (d & -> & Hd & Hout).
    fold (img_etiquetas.discover (fs w) (Path img_dir)) in Hd, Hout.
    destruct (img_discover_spec (fs w) (Path img_dir) es Hr) as [Hnd Hin].
    eexists _, (img_etiquetas.discover (fs w) (Path img_dir)).
    split; [reflexivity|]. simpl. rewrite Hd, Hout.
    split; [reflexivity|]. split; [reflexivity|]. split; [exact Hnd|exact Hin].
  - assert (He : exists_ (fs w) (Path img_dir) = true)
      by (unfold exists_; by rewrite Hr).
    rewrite (subir_split_present w _ _ _ He).
    destruct (subir_inner_exact w split (subir.discover (fs w) (Path img_dir)) n)
      as (d & -> & Hd & Hout).
    destruct (subir_discover_spec (fs w) (Path img_dir) es Hr) as [Hnd Hin].
    eexists _, (subir.discover (fs w) (Path img_dir)).
    split; [reflexivity|]. simpl. rewrite Hd, Hout.
    split; [reflexivity|]. split; [reflexivity|]. split; [exact Hnd|exact Hin].
Qed.

Lemma discovery_per_script_witness :
  ∃ d,
    img_etiquetas.upload_split (sample_world accepting)
      ("train", ("data/train/images", "data/train/labels")) 0%nat
      = (Ret tt, d) ∧
    stdout d = [img_etiquetas.banner "train"; "✅ a.jpg  (+ label)";
                "✅ b.png  (solo imagen)"].
Proof.
  assert (Hdir : resolve (fs (sample_world accepting)) (Path "data/train/images")
                 = Some (Dir (list_to_map [("a.jpg", File); ("b.png", File)])))
    by reflexivity.
  destruct (discovery_per_script (sample_world accepting)
              "train" "data/train/images" "data/train/labels"
              (list_to_map [("a.jpg", File); ("b.png", File)]) 0 Hdir)
    as (_ & (d & ps & Hrun & _) & _).
  exists d. split; [exact Hrun|].
  apply (f_equal snd) in Hrun. simpl in Hrun. rewrite <- Hrun.
  vm_compute. reflexivity.
Defined.

(** ** Missing splits *)




(** ** A returned upload reported as failed *)

(** C7.  With every check passed and an upload that returns a dictionary
    whose [image] entry is a string, subir2.py prints the success line
    and the answer, then reports an upload error and exits with status
    [7]: reading the link raises inside the [try] that guards the upload
    call. *)
Theorem returned_upload_exits_7 :
  early_exit (sample_world image_not_dict) sample_argv = None ∧
  (∃ kw r,
     uploads (run (subir2.main (sample_world image_not_dict) sample_argv)).2
       = [kw] ∧
     client_upload image_not_dict 0 kw = inr r) ∧
  stdout (run (subir2.main (sample_world image_not_dict) sample_argv)).2 =
    ["=== Subiendo imagen a Roboflow ===";
     "- Workspace: my-workspace";
     "- Proyecto:  my-project";
     "- Imagen:    a.jpg";
     "- Split:     train";
     nl +:+ "✅ Subida completada con éxito.";
     "Respuesta del servidor: {'image': 'https://app/x.jpg'}"] ∧
  stderr (run (subir2.main (sample_world image_not_dict) sample_argv)).2 =
    [nl +:+ "❌ Error al subir la imagen: 'str' object has no attribute 'get'"] ∧
  exit_status (run (subir2.main (sample_world image_not_dict) sample_argv)).1
    = 7.
Proof.
  split; [vm_compute; reflexivity|]. split.
  { eexists _, _. split; reflexivity. }
  split; [vm_compute; reflexivity|]. split; vm_compute; reflexivity.
Qed.

(** ** Credentials *)

(** C3, as the scripts have it.  When neither [ROBOFLOW_API_KEY] nor
    [roboflow_api_key] is set, in the process or in [.env],
    img_etiquetas.py and subir.py raise and subir2.py exits with status
    [2] right after loading [.env]: the trace holds no file-system query
    and no client call. *)
Theorem missing_credential_stops_first (w : world) (a : subir2.argv) :
  getenv w "ROBOFLOW_API_KEY" = None →
  getenv w "roboflow_api_key" = None →
  run (img_etiquetas.main w) =
    (Raise (RuntimeError "No se encontró ROBOFLOW_API_KEY en el .env"),
     [ELoadDotenv]) ∧
  run (subir.main w) =
    (Raise (ValueError
       "No se encontró la API Key. Define ROBOFLOW_API_KEY en tu archivo .env"),
     [ELoadDotenv]) ∧
  run (subir2.main w a) =
    (Exit 2,
     [ELoadDotenv;
      EStderr ("ERROR: No se encontró la API key." +:+ nl +:+
               "Define ROBOFLOW_API_KEY en tu entorno o en un archivo .env")]) ∧
  Forall (λ e, fs_event e = false ∧ client_event e = false)
         ((run (img_etiquetas.main w)).2 ++ (run (subir.main w)).2 ++
          (run (subir2.main w a)).2).
Proof.
  intros H1 H2.
  assert (Hi : run (img_etiquetas.main w) =
               (Raise (RuntimeError "No se encontró ROBOFLOW_API_KEY en el .env"),
                [ELoadDotenv])).
  { unfold run, img_etiquetas.main. py_step. by rewrite H1, H2. }
  assert (Hs : run (subir.main w) =
               (Raise (ValueError
                  "No se encontró la API Key. Define ROBOFLOW_API_KEY en tu archivo .env"),
                [ELoadDotenv])).
  { unfold run, subir.main. py_step. by rewrite H1, H2. }
  assert (Hc : run (subir2.main w a) =
               (Exit 2,
                [ELoadDotenv;
                 EStderr ("ERROR: No se encontró la API key." +:+ nl +:+
                          "Define ROBOFLOW_API_KEY en tu entorno o en un archivo .env")])).
  { unfold run, subir2.main, subir2.get_api_key. py_step. by rewrite H1, H2. }
  rewrite Hi, Hs, Hc. repeat split. simpl. by repeat constructor.
Qed.

Lemma missing_credential_stops_first_witness :
  (run (subir2.main no_credential_world sample_argv)).1 = Exit 2 ∧
  (run (img_etiquetas.main no_credential_world)).2 = [ELoadDotenv].
Proof.
  destruct (missing_credential_stops_first no_credential_world sample_argv
              eq_refl eq_refl) as (Hi & _ & Hc & _).
  rewrite Hi, Hc. split; reflexivity.
Defined.

(** C3 as stated fails for upload.py: with no credential anywhere it
    reads [roboflow_api_key] alone, tests nothing, builds the client with
    no key and goes on to call it; with a client that accepts this, the
    script runs to its end and uploads twice. *)
Lemma upload_py_runs_without_credential :
  getenv no_credential_world "ROBOFLOW_API_KEY" = None ∧
  getenv no_credential_world "roboflow_api_key" = None ∧
  (run (upload.main no_credential_world)).1 = Ret tt ∧
  take 3 (run (upload.main no_credential_world)).2
    = [ELoadDotenv; ERoboflow None; EWorkspace None] ∧
  length (List.filter client_event (run (upload.main no_credential_world)).2)
    = 6%nat ∧
  ¬ Forall (λ e, client_event e = false)
           (run (upload.main no_credential_world)).2.
Proof.
  split; [reflexivity|]. split; [reflexivity|]. split; [reflexivity|].
  split; [reflexivity|]. split; [vm_compute; reflexivity|].
  intros H. apply (Forall_lookup_1 _ _ 1 (ERoboflow None)) in H.
  - discriminate H.
  - reflexivity.
Qed.

(** C8 as stated fails for subir.py: [b.png] is a regular file with a
    recognised extension in a split that exists, and the run makes no
    upload call for it. *)
Lemma subir_leaves_png_out :
  is_file (fs (sample_world accepting)) ["data"; "train"; "images"; "b.png"]
    = true ∧
  Py.lower (suffix "b.png") ∈ img_etiquetas.EXTS ∧
  (λ kw, kw !! "image_path") <$>
    uploads (run (subir.main (sample_world accepting))).2
  = [Some (VStr "data/train/images/a.jpg")] ∧
  attempts "data/train/images/b.png"
    (run (subir.main (sample_world accepting))).2 = 0%nat.
Proof.
  split; [reflexivity|]. split.
  { apply EXTS_spec. right. right. left. reflexivity. }
  split; vm_compute; reflexivity.
Qed.

(** ** The scripts on the sample tree *)

(** img_etiquetas.py with a client that accepts everything: [a.jpg] goes
    with its label, [b.png] without, the empty [val] folder gives a banner
    only and the missing [test] folder a warning. *)
Example img_etiquetas_accepting :
  run (img_etiquetas.main (sample_world accepting)) =
    (Ret tt,
     [ ELoadDotenv; ERoboflow (Some "key");
       EWorkspace (Some "deteccion-h92uo");
       EProject (Some "humo_detecter-cuzoe");
       EExists ["data"; "train"; "images"];
       EStdout (img_etiquetas.banner "train");
       EIterdir ["data"; "train"; "images"];
       EIsFile ["data"; "train"; "images"; "a.jpg"];
       EExists ["data"; "train"; "labels"; "a.txt"];
       EUpload (img_etiquetas.request sample_fs "train"
                  ["data"; "train"; "labels"]
                  ["data"; "train"; "images"; "a.jpg"]);
       EExists ["data"; "train"; "labels"; "a.txt"];
       EStdout "✅ a.jpg  (+ label)";
       EIsFile ["data"; "train"; "images"; "b.png"];
       EExists ["data"; "train"; "labels"; "b.txt"];
       EUpload (img_etiquetas.request sample_fs "train"
                  ["data"; "train"; "labels"]
                  ["data"; "train"; "images"; "b.png"]);
       EExists ["data"; "train"; "labels"; "b.txt"];
       EStdout "✅ b.png  (solo imagen)";
       EExists ["data"; "val"; "images"];
       EStdout (img_etiquetas.banner "valid");
       EIterdir ["data"; "val"; "images"];
       EExists ["data"; "test"; "images"];
       EStdout "⚠️ No existe data/test/images (split test)" ]).
Proof. vm_compute. reflexivity. Qed.

(** subir.py on the same tree uploads [a.jpg] alone. *)
Example subir_accepting :
  stdout (run (subir.main (sample_world accepting))).2 =
    [ subir.banner "train" ["data"; "train"; "images"];
      "✅ Subida: a.jpg";
      subir.banner "valid" ["data"; "val"; "images"];
      "⚠️ No existe la carpeta: data/test/images" ].
Proof. vm_compute. reflexivity. Qed.

(** subir2.py: a refused upload, and an image path that is a directory. *)
Example subir2_refused :
  (run (subir2.main (sample_world rejecting_uploads) sample_argv)).1 = Exit 7.
Proof. vm_compute. reflexivity. Qed.

Example subir2_not_a_file :
  (run (subir2.main (sample_world accepting)
          {| subir2.flag_workspace := Some "my-workspace";
             subir2.flag_project := Some "my-project";
             subir2.flag_image := "data/train/images";
             subir2.flag_batch_name := None;
             subir2.flag_split := None;
             subir2.flag_tags := None;
             subir2.flag_retries := None;
             subir2.flag_seq_num := None;
             subir2.flag_seq_size := None |})).1 = Exit 3.
Proof. vm_compute. reflexivity. Qed.

(** * Further properties of the scripts *)

(** ** Names with several dots *)

(** A non-empty stem followed by a dot and a dot-free extension. *)
Lemma stem_suffix_ext (s r : string) :
  s ≠ "" → r ≠ "" → Py.rfind "." r = -1 →
  stem (s +:+ String "." r) = s ∧ suffix (s +:+ String "." r) = String "." r.
Proof.
  intros Hs Hr Hdot. unfold stem, suffix.
  rewrite (rfind_append "." s r Hdot).
  unfold Py.len. rewrite length_append. simpl String.length.
  rewrite Nat2Z.id.
  assert (0 < String.length s)%nat by (destruct s; [done|simpl; lia]).
  assert (0 < String.length r)%nat by (destruct r; [done|simpl; lia]).
  destruct ((0 <? Z.of_nat (String.length s)) &&
            (Z.of_nat (String.length s) <?
             Z.of_nat (String.length s + S (String.length r)) - 1)) eqn:E.
  2:{ apply andb_false_iff in E as [E|E]; apply Z.ltb_ge in E; lia. }
  by rewrite take_append, drop_append.
Qed.

Lemma EXTS_shape (e : string) :
  e ∈ img_etiquetas.EXTS →
  ∃ r, e = String "." r ∧ r ≠ "" ∧ Py.rfind "." r = -1 ∧ Py.lower e = e.
Proof.
  intros He. apply EXTS_spec in He.
  destruct He as [-> | [-> | [-> | [-> | ->]]]]; eexists; by repeat split.
Qed.

Lemma dots_only_nonempty (s : string) : dots_only s = false → s ≠ "".
Proof. intros H ->. discriminate H. Qed.

(** X1. The label of an image named [s] followed by a recognised extension
    is [s.txt] in the label directory, whatever dots [s] holds as long as
    it is not made of dots only, and a regular file with such a name is
    among the images the loop uploads. *)
Theorem label_keeps_whole_stem (fs : node) (img_dir lbl_dir : path)
    (es : gmap string node) (s e : string) :
  dots_only s = false → e ∈ img_etiquetas.EXTS →
  resolve fs img_dir = Some (Dir es) →
  es !! (s +:+ e) = Some File →
  joinpath img_dir (s +:+ e) ∈ img_etiquetas.discover fs img_dir ∧
  img_etiquetas.label_path lbl_dir (joinpath img_dir (s +:+ e))
    = joinpath lbl_dir (s +:+ ".txt").
Proof.
  intros Hs He Hdir Hf. apply dots_only_nonempty in Hs.
  destruct (EXTS_shape e He) as (r & -> & Hr & Hdot & Hlow).
  destruct (stem_suffix_ext s r Hs Hr Hdot) as [Hstem Hsuf]. split.
  - apply (proj2 (img_discover_spec fs img_dir es Hdir)). eexists. split; [done|].
    split; [done|]. by rewrite Hsuf, Hlow.
  - unfold img_etiquetas.label_path. by rewrite name_joinpath, Hstem.
Qed.

Lemma label_keeps_whole_stem_witness :
  img_etiquetas.label_path ["labels"] (joinpath ["images"] "frame.0001.jpg")
    = joinpath ["labels"] "frame.0001.txt".
Proof.
  assert (Hdir : resolve (dir [("images", dir [("frame.0001.jpg", File)])])
                   ["images"]
                 = Some (Dir (list_to_map [("frame.0001.jpg", File)])))
    by reflexivity.
  assert (He : ".jpg" ∈ img_etiquetas.EXTS).
  { apply EXTS_spec. left. reflexivity. }
  exact (proj2 (label_keeps_whole_stem
                  (dir [("images", dir [("frame.0001.jpg", File)])])
                  ["images"] ["labels"]
                  (list_to_map [("frame.0001.jpg", File)])
                  "frame.0001" ".jpg" eq_refl He Hdir eq_refl)).
Defined.

(** ** The two ways of taking images from a folder *)

(** X2. A regular file whose name ends in [.jpg] is taken by subir.py.
    img_etiquetas.py takes it too when what precedes [.jpg] is not made of
    dots only, and leaves out the file named [.jpg] alone, which has no
    suffix for [pathlib]. *)
Theorem jpg_files_taken_by_both (fs : node) (d : path)
    (es : gmap string node) (pre : string) :
  resolve fs d = Some (Dir es) →
  es !! (pre +:+ ".jpg") = Some File →
  joinpath d (pre +:+ ".jpg") ∈ subir.discover fs d ∧
  (dots_only pre = false →
   joinpath d (pre +:+ ".jpg") ∈ img_etiquetas.discover fs d) ∧
  (pre = "" → joinpath d (pre +:+ ".jpg") ∉ img_etiquetas.discover fs d).
Proof.
  intros Hdir Hf. split; [|split].
  - apply (proj2 (subir_discover_spec fs d es Hdir)).
    exists (pre +:+ ".jpg"), pre. split; [reflexivity|].
    split; [|reflexivity]. rewrite Hf. by eexists.
  - intros Hpre. apply dots_only_nonempty in Hpre.
    apply (proj2 (img_discover_spec fs d es Hdir)).
    exists (pre +:+ ".jpg"). split; [reflexivity|]. split; [exact Hf|].
    destruct (stem_suffix_ext pre "jpg" Hpre) as [_ ->]; [done|done|].
    apply EXTS_spec. by left.
  - intros -> Hin.
    apply (proj2 (img_discover_spec fs d es Hdir)) in Hin
      as (g & Heq & _ & Hext).
    apply joinpath_inj in Heq as <-. revert Hext. by vm_compute.
Qed.

Lemma jpg_files_taken_by_both_witness :
  joinpath ["data"; "train"; "images"] "a.jpg"
    ∈ subir.discover sample_fs ["data"; "train"; "images"] ∧
  joinpath ["data"; "train"; "images"] "a.jpg"
    ∈ img_etiquetas.discover sample_fs ["data"; "train"; "images"].
Proof.
  assert (Hdir : resolve sample_fs ["data"; "train"; "images"]
                 = Some (Dir (list_to_map [("a.jpg", File); ("b.png", File)])))
    by reflexivity.
  destruct (jpg_files_taken_by_both sample_fs ["data"; "train"; "images"]
              (list_to_map [("a.jpg", File); ("b.png", File)]) "a"
              Hdir eq_refl) as (H1 & H2 & _).
  split; [exact H1|exact (H2 eq_refl)].
Defined.

(** ** An image path that is not a directory *)

(** X3. When the image path of a split is a regular file, img_etiquetas.py
    prints the banner of the split and the scan raises
    [NotADirectoryError]: the loop ends there and the splits after it are
    not looked at. *)
Theorem file_as_image_dir_stops_img_etiquetas (w : world)
    (split img_dir lbl_dir : string)
    (rest : list (string * (string * string))) (n : nat) :
  resolve (fs w) (Path img_dir) = Some File →
  for_ ((split, (img_dir, lbl_dir)) :: rest) (img_etiquetas.upload_split w) n
    = (Raise (NotADirectoryError (str (Path img_dir))),
       [EExists (Path img_dir); EStdout (img_etiquetas.banner split);
        EIterdir (Path img_dir)]).
Proof.
  intros Hr. by rewrite for_cons, (img_split_file w _ _ _ _ Hr).
Qed.

Lemma file_as_image_dir_stops_img_etiquetas_witness :
  for_ img_etiquetas.SPLITS
       (img_etiquetas.upload_split file_at_train_world) 0%nat
    = (Raise (NotADirectoryError "data/train/images"),
       [EExists ["data"; "train"; "images"];
        EStdout (img_etiquetas.banner "train");
        EIterdir ["data"; "train"; "images"]]).
Proof.
  exact (file_as_image_dir_stops_img_etiquetas file_at_train_world
           "train" "data/train/images" "data/train/labels"
           [("valid", ("data/val/images", "data/val/labels"));
            ("test", ("data/test/images", "data/test/labels"))]
           0 eq_refl).
Defined.

(** X4. In the same situation subir.py goes on: the pattern matches
    nothing in a path that is not a directory, so the split gets its
    banner, no upload, and the remaining splits are processed as usual. *)
Theorem file_as_image_dir_passes_subir (w : world) (split folder : string)
    (rest : list (string * string)) (n : nat) :
  resolve (fs w) (Path folder) = Some File →
  for_ ((split, folder) :: rest) (subir.upload_split w) n =
    ((for_ rest (subir.upload_split w) n).1,
     [EExists (Path folder); EStdout (subir.banner split (Path folder));
      EGlob (Path folder) "*.jpg"] ++
     (for_ rest (subir.upload_split w) n).2).
Proof.
  intros Hr.
  assert (He : exists_ (fs w) (Path folder) = true)
    by (unfold exists_; by rewrite Hr).
  rewrite for_cons, (subir_split_present w _ _ _ He).
  unfold subir.discover, listdir. rewrite Hr. simpl.
  rewrite Nat.add_0_r. by destruct (for_ rest _ n).
Qed.

Lemma file_as_image_dir_passes_subir_witness :
  (for_ subir.splits (subir.upload_split file_at_train_world) 0%nat).1
    = Ret tt ∧
  (λ kw, kw !! "image_path") <$>
    uploads (for_ subir.splits
               (subir.upload_split file_at_train_world) 0%nat).2
  = [Some (VStr "data/val/images/c.jpg")].
Proof.
  unfold subir.splits.
  rewrite (file_as_image_dir_passes_subir file_at_train_world
             "train" "data/train/images"
             [("valid", "data/val/images"); ("test", "data/test/images")]
             0 eq_refl).
  split; vm_compute; reflexivity.
Defined.

(** ** Before the split loop *)

(** The opening shared by both batch scripts, when the client, the
    workspace or the project cannot be obtained. *)
Lemma batch_setup_failure (w : world) (e : exn) (ws pj : option string)
    (loop : M unit) :
  Py.truthy (credential w) = true →
  let m := bind load_dotenv (λ _,
             if negb (Py.truthy (credential w)) then raise e
             else bind (Roboflow w (credential w)) (λ _,
                  bind (rf_workspace w ws) (λ _,
                  bind (workspace_project w pj) (λ _, loop)))) in
  (∀ msg, client_init (remote w) (credential w) = inl msg →
          run m = (Raise (ClientError msg),
                   [ELoadDotenv; ERoboflow (credential w)])) ∧
  (∀ msg, client_init (remote w) (credential w) = inr tt →
          client_workspace (remote w) ws = inl msg →
          run m = (Raise (ClientError msg),
                   [ELoadDotenv; ERoboflow (credential w); EWorkspace ws])) ∧
  (∀ msg name, client_init (remote w) (credential w) = inr tt →
          client_workspace (remote w) ws = inr name →
          client_project (remote w) pj = inl msg →
          run m = (Raise (ClientError msg),
                   [ELoadDotenv; ERoboflow (credential w); EWorkspace ws;
                    EProject pj])).
Proof.
  intros Hk. unfold run. py_step. rewrite Hk. simpl. split; [|split].
  - intros msg ->. reflexivity.
  - intros msg -> ->. reflexivity.
  - intros msg name -> -> ->. reflexivity.
Qed.

(** X5. In both batch scripts a failure to build the client, to find the
    workspace or to find the project is not caught: the exception ends the
    run before any file-system query and before any upload call. *)
Theorem setup_failure_ends_batch_run (w : world) :
  Py.truthy (credential w) = true →
  (∀ msg, client_init (remote w) (credential w) = inl msg →
     run (img_etiquetas.main w) =
       (Raise (ClientError msg), [ELoadDotenv; ERoboflow (credential w)]) ∧
     run (subir.main w) =
       (Raise (ClientError msg), [ELoadDotenv; ERoboflow (credential w)])) ∧
  (∀ msg, client_init (remote w) (credential w) = inr tt →
     client_workspace (remote w) (Some "deteccion-h92uo") = inl msg →
     run (img_etiquetas.main w) =
       (Raise (ClientError msg),
        [ELoadDotenv; ERoboflow (credential w);
         EWorkspace (Some "deteccion-h92uo")]) ∧
     run (subir.main w) =
       (Raise (ClientError msg),
        [ELoadDotenv; ERoboflow (credential w);
         EWorkspace (Some "deteccion-h92uo")])) ∧
  (∀ msg name, client_init (remote w) (credential w) = inr tt →
     client_workspace (remote w) (Some "deteccion-h92uo") = inr name →
     client_project (remote w) (Some "humo_detecter-cuzoe") = inl msg →
     run (img_etiquetas.main w) =
       (Raise (ClientError msg),
        [ELoadDotenv; ERoboflow (credential w);
         EWorkspace (Some "deteccion-h92uo");
         EProject (Some "humo_detecter-cuzoe")]) ∧
     run (subir.main w) =
       (Raise (ClientError msg),
        [ELoadDotenv; ERoboflow (credential w);
         EWorkspace (Some "deteccion-h92uo");
         EProject (Some "humo_detecter-cuzoe")])).
Proof.
  intros Hk.
  destruct (batch_setup_failure w
              (RuntimeError "No se encontró ROBOFLOW_API_KEY en el .env")
              (Some "deteccion-h92uo") (Some "humo_detecter-cuzoe")
              (for_ img_etiquetas.SPLITS (img_etiquetas.upload_split w)) Hk)
    as (I1 & I2 & I3).
  destruct (batch_setup_failure w
              (ValueError
                 "No se encontró la API Key. Define ROBOFLOW_API_KEY en tu archivo .env")
              (Some "deteccion-h92uo") (Some "humo_detecter-cuzoe")
              (for_ subir.splits (subir.upload_split w)) Hk)
    as (S1 & S2 & S3).
  split; [|split].
  - intros msg H. split; [exact (I1 msg H)|exact (S1 msg H)].
  - intros msg H1 H2. split; [exact (I2 msg H1 H2)|exact (S2 msg H1 H2)].
  - intros msg name H1 H2 H3.
    split; [exact (I3 msg name H1 H2 H3)|exact (S3 msg name H1 H2 H3)].
Qed.

Lemma setup_failure_ends_batch_run_witness :
  run (img_etiquetas.main (sample_world no_workspace)) =
    (Raise (ClientError "not found"),
     [ELoadDotenv; ERoboflow (Some "key");
      EWorkspace (Some "deteccion-h92uo")]).
Proof.
  destruct (setup_failure_ends_batch_run (sample_world no_workspace) eq_refl)
    as (_ & H & _).
  exact (proj1 (H "not found" eq_refl eq_refl)).
Defined.

Lemma truthy_false (o : option string) :
  Py.truthy o = false ↔ o = None ∨ o = Some "".
Proof.
  destruct o as [k|]; simpl.
  - rewrite negb_false_iff, String.eqb_eq. split.
    + intros ->. by right.
    + by intros [[=]|[= ->]].
  - split; [by left|done].
Qed.

Lemma truthy_or_false (x y : option string) :
  Py.truthy (Py.or_ x y) = false ↔ Py.truthy x = false ∧ Py.truthy y = false.
Proof.
  unfold Py.or_. destruct (Py.truthy x) eqn:Hx.
  - rewrite Hx. split; [done|]. by intros [? _].
  - split; [done|]. by intros [_ ?].
Qed.

(** X6. The credential test lets a run through exactly when one of the two
    variables holds a non-empty value: a variable set to the empty string
    counts as unset. Otherwise img_etiquetas.py and subir.py raise and
    subir2.py exits with status [2], each right after loading [.env]. *)
Theorem empty_credential_counts_as_missing (w : world) (a : subir2.argv) :
  (Py.truthy (credential w) = false ↔
     (getenv w "ROBOFLOW_API_KEY" = None ∨
      getenv w "ROBOFLOW_API_KEY" = Some "") ∧
     (getenv w "roboflow_api_key" = None ∨
      getenv w "roboflow_api_key" = Some "")) ∧
  (Py.truthy (credential w) = false ↔
     run (img_etiquetas.main w) =
       (Raise (RuntimeError "No se encontró ROBOFLOW_API_KEY en el .env"),
        [ELoadDotenv])) ∧
  (Py.truthy (credential w) = false ↔
     run (subir.main w) =
       (Raise (ValueError
          "No se encontró la API Key. Define ROBOFLOW_API_KEY en tu archivo .env"),
        [ELoadDotenv])) ∧
  (Py.truthy (credential w) = false ↔
     (run (subir2.main w a)).2 =
       [ELoadDotenv;
        EStderr ("ERROR: No se encontró la API key." +:+ nl +:+
                 "Define ROBOFLOW_API_KEY en tu entorno o en un archivo .env")]).
Proof.
  split; [|split; [|split]].
  - unfold credential. by rewrite truthy_or_false, !truthy_false.
  - unfold run, img_etiquetas.main. fold (credential w).
    generalize (for_ img_etiquetas.SPLITS (img_etiquetas.upload_split w)).
    intros loop. py_step.
    destruct (Py.truthy (credential w)); simpl; [|done].
    split; [done|]. destruct (client_init (remote w) _) as [?|[]]; simpl;
      [done|].
    destruct (client_workspace (remote w) _); simpl; [done|].
    destruct (client_project (remote w) _) as [?|[]]; simpl; [done|].
    by destruct (loop _).
  - unfold run, subir.main. fold (credential w).
    generalize (for_ subir.splits (subir.upload_split w)).
    intros loop. py_step.
    destruct (Py.truthy (credential w)); simpl; [|done].
    split; [done|]. destruct (client_init (remote w) _) as [?|[]]; simpl;
      [done|].
    destruct (client_workspace (remote w) _); simpl; [done|].
    destruct (client_project (remote w) _) as [?|[]]; simpl; [done|].
    by destruct (loop _).
  - unfold run, subir2.main, subir2.get_api_key. fold (credential w).
    generalize (subir2.parse_args w a). intros args. py_step.
    destruct (Py.truthy (credential w)); simpl; [|done].
    split; [done|].
    destruct (Py.truthy (subir2.workspace args)); simpl; [|done].
    destruct (Py.truthy (subir2.project args)); simpl; [|done].
    destruct (expanduser w _) as [ex|]; simpl; [|done].
    destruct (exists_ (root w) _); simpl; [|done].
    destruct (is_file (root w) _); simpl; [|done].
    destruct (client_init (remote w) _) as [?|[]]; simpl; [done|].
    destruct (client_workspace (remote w) _); simpl; [done|].
    destruct (client_project (remote w) _) as [?|[]]; simpl; [done|].
    destruct (Py.truthy (subir2.batch_name args)); simpl;
      destruct (Py.truthy (subir2.split args)); simpl;
      destruct (subir2.nonempty_list (subir2.tags args)); simpl;
      destruct (subir2.sequence_number args); simpl;
      destruct (client_upload (remote w) 0 _) as [msg|[t|t il l|t err]]; simpl;
      try discriminate;
      destruct (Py.truthy (Py.or_ il l)); discriminate.
Qed.

(** ** upload.py *)

(** X7. upload.py has no [try]: when its first upload is refused the
    exception ends the script, and the second upload, the one with the
    batch name, tags and sequence numbers, is never attempted. *)
Theorem upload_py_stops_at_first_failure (w : world) (name msg : string) :
  client_init (remote w) (getenv w "roboflow_api_key") = inr tt →
  client_workspace (remote w) None = inr name →
  (∃ name', client_workspace (remote w) (Some upload.workspaceId)
            = inr name') →
  client_project (remote w) (Some upload.projectId) = inr tt →
  client_upload (remote w) 0 (<["image_path" := VStr "UPLOAD_IMAGE.jpg"]> ∅)
    = inl msg →
  run (upload.main w) =
    (Raise (ClientError msg),
     [ELoadDotenv; ERoboflow (getenv w "roboflow_api_key");
      EWorkspace None; EStdout name;
      EWorkspace (Some upload.workspaceId);
      EProject (Some upload.projectId);
      EUpload (<["image_path" := VStr "UPLOAD_IMAGE.jpg"]> ∅)]).
Proof.
  intros H1 H2 [name' H3] H4 H5. unfold run, upload.main. py_step.
  rewrite H1. simpl. rewrite H2. simpl. rewrite H3. simpl. rewrite H4. simpl.
  rewrite H5. reflexivity.
Qed.

Lemma upload_py_stops_at_first_failure_witness :
  length (uploads (run (upload.main (sample_world rejecting_uploads))).2)
    = 1%nat.
Proof.
  rewrite (upload_py_stops_at_first_failure (sample_world rejecting_uploads)
             "workspace" "timeout" eq_refl eq_refl
             (ex_intro _ "workspace" eq_refl) eq_refl eq_refl).
  reflexivity.
Defined.

(** ** Defaults of the command line *)

(** X9. subir2.py takes the defaults of [--workspace] and [--project] from
    the process environment as it is when the command line is parsed,
    which is before [.env] is loaded: without the flag and without the
    variable in the process, the run ends with status [2] whatever [.env]
    holds. *)
Theorem dotenv_workspace_is_not_a_default (w : world) (a : subir2.argv) :
  Py.truthy (credential w) = true →
  subir2.flag_workspace a = None →
  environ w !! "ROBOFLOW_WORKSPACE" = None →
  run (subir2.main w a) =
    (Exit 2,
     [ELoadDotenv;
      EStderr "ERROR: Debes indicar --workspace o setear ROBOFLOW_WORKSPACE en .env"]).
Proof.
  intros Hk Hf He. unfold run, subir2.main, subir2.get_api_key.
  fold (credential w).
  assert (Hw : subir2.workspace (subir2.parse_args w a) = None).
  { unfold subir2.parse_args, getenv_unloaded. simpl. by rewrite Hf, He. }
  generalize dependent (subir2.parse_args w a). intros args Hw.
  py_step. rewrite Hk, Hw. reflexivity.
Qed.

Lemma dotenv_workspace_is_not_a_default_witness :
  dotenv dotenv_only_world !! "ROBOFLOW_WORKSPACE" = Some "my-workspace" ∧
  (run (subir2.main dotenv_only_world image_only_argv)).1 = Exit 2.
Proof.
  split; [reflexivity|].
  rewrite (dotenv_workspace_is_not_a_default dotenv_only_world image_only_argv
             eq_refl eq_refl eq_refl).
  reflexivity.
Defined.

(** ** The run of subir2.py, case by case *)

(** Every way [subir2.main] can go, each closed by [fin]. *)
Ltac subir2_cases w args fin :=
  py_step;
  destruct (Py.truthy (credential w)); simpl; [|fin];
  destruct (Py.truthy (subir2.workspace args)); simpl; [|fin];
  destruct (Py.truthy (subir2.project args)); simpl; [|fin];
  destruct (expanduser w _) as [ex|]; simpl; [|fin];
  destruct (exists_ (root w) _); simpl; [|fin];
  destruct (is_file (root w) _); simpl; [|fin];
  destruct (client_init (remote w) _) as [?|[]]; simpl; [fin|];
  destruct (client_workspace (remote w) _) as [?|?]; simpl; [fin|];
  destruct (client_project (remote w) _) as [?|[]]; simpl; [fin|];
  destruct (Py.truthy (subir2.batch_name args)); simpl;
  destruct (Py.truthy (subir2.split args)); simpl;
  destruct (subir2.nonempty_list (subir2.tags args)); simpl;
  destruct (subir2.sequence_number args); simpl;
  destruct (client_upload (remote w) 0 _) as [?|[?|? il l|? ?]]; simpl;
  try (destruct (Py.truthy (Py.or_ il l)); simpl);
  fin.

(** X10. subir2.py calls the client only once the credential, the
    workspace, the project and the image file have been checked, and
    uploads only once the client, the workspace and the project have been
    obtained: the trace holds an upload call exactly when the exit status
    is [0] or [7], and no client call at all exactly when it is [1], [2]
    or [3]. *)
Theorem subir2_calls_after_checks (w : world) (a : subir2.argv) :
  length (uploads (run (subir2.main w a)).2) =
    (if (exit_status (run (subir2.main w a)).1 =? 0)
        || (exit_status (run (subir2.main w a)).1 =? 7)
     then 1%nat else 0%nat) ∧
  (List.filter client_event (run (subir2.main w a)).2 = [] ↔
     exit_status (run (subir2.main w a)).1 = 1 ∨
     exit_status (run (subir2.main w a)).1 = 2 ∨
     exit_status (run (subir2.main w a)).1 = 3).
Proof.
  unfold run, subir2.main, subir2.get_api_key.
  fold (credential w). generalize (subir2.parse_args w a). intros args.
  subir2_cases w args
    ltac:(split; [reflexivity|];
          split; intros H;
          first [discriminate H
                | destruct H as [H|[H|H]]; discriminate H
                | left; reflexivity
                | right; left; reflexivity
                | right; right; reflexivity
                | reflexivity]).
Qed.


(** ** Options of subir2.py: what is sent and what is shown *)

Lemma subir2_kwargs_lookup (w : world) (a : subir2.argv) (q : apath) :
  let kw := subir2.upload_kwargs (subir2.parse_args w a) q in
  kw !! "image_path" = Some (VStr (astr q)) ∧
  kw !! "num_retry_uploads" = Some (VInt (default 3 (subir2.flag_retries a))) ∧
  kw !! "batch_name" = VStr <$> subir2.flag_batch_name a ∧
  kw !! "split" = VStr ∘ subir2.choice_str <$> subir2.flag_split a ∧
  kw !! "tag_names" = VStrs <$> subir2.flag_tags a ∧
  kw !! "sequence_number" = VInt <$> subir2.flag_seq_num a ∧
  kw !! "sequence_size" = VInt <$> subir2.flag_seq_size a ∧
  dom kw ⊆ {[ "image_path"; "num_retry_uploads"; "batch_name"; "split";
              "tag_names"; "sequence_number"; "sequence_size" ]}.
Proof.
  unfold subir2.upload_kwargs. simpl.
  repeat split;
    rewrite ?lookup_omap, ?lookup_insert_eq, ?lookup_insert_ne by discriminate;
    simpl;
    try (by destruct (subir2.flag_batch_name a));
    try (by destruct (subir2.flag_split a));
    try (by destruct (subir2.flag_tags a));
    try (by destruct (subir2.flag_seq_num a));
    try (by destruct (subir2.flag_seq_size a)).
  intros k Hk. apply elem_of_dom in Hk as [v Hk].
  rewrite lookup_omap in Hk.
  rewrite !elem_of_union, !elem_of_singleton.
  repeat match type of Hk with
  | context [<[?k' := _]> _ !! k] =>
      destruct (decide (k' = k)) as [<-|?];
      [solve [repeat first [reflexivity | right; reflexivity | left]]
      |rewrite (lookup_insert_ne _ k' k) in Hk by assumption]
  end.
  by rewrite lookup_empty in Hk.
Qed.

Lemma subir2_upload_of_run (w : world) (a : subir2.argv) :
  exit_status (run (subir2.main w a)).1 = 0 ∨
  exit_status (run (subir2.main w a)).1 = 7 →
  ∃ q, uploads (run (subir2.main w a)).2 =
         [subir2.upload_kwargs (subir2.parse_args w a) q].
Proof.
  unfold run, subir2.main, subir2.get_api_key.
  fold (credential w). generalize (subir2.parse_args w a). intros args.
  subir2_cases w args
    ltac:(first [by intros [|] | intros _; eexists; reflexivity]).
Qed.

(** X12. The upload call of subir2.py always carries an image path and
    the retry count (the [--retries] value as given, negative or not, else
    [3]); it carries the batch name, the split, the tags, the sequence
    number and the sequence size exactly when the option was given, with
    the value given, be it an empty batch name, an empty list of tags or
    [0]; it carries nothing else. *)
Theorem subir2_sends_what_was_given (w : world) (a : subir2.argv) :
  exit_status (run (subir2.main w a)).1 = 0 ∨
  exit_status (run (subir2.main w a)).1 = 7 →
  ∃ kw,
    uploads (run (subir2.main w a)).2 = [kw] ∧
    is_Some (kw !! "image_path") ∧
    kw !! "num_retry_uploads"
      = Some (VInt (default 3 (subir2.flag_retries a))) ∧
    kw !! "batch_name" = VStr <$> subir2.flag_batch_name a ∧
    kw !! "split" = VStr ∘ subir2.choice_str <$> subir2.flag_split a ∧
    kw !! "tag_names" = VStrs <$> subir2.flag_tags a ∧
    kw !! "sequence_number" = VInt <$> subir2.flag_seq_num a ∧
    kw !! "sequence_size" = VInt <$> subir2.flag_seq_size a ∧
    dom kw ⊆ {[ "image_path"; "num_retry_uploads"; "batch_name"; "split";
                "tag_names"; "sequence_number"; "sequence_size" ]}.
Proof.
  intros Ha. destruct (subir2_upload_of_run w a Ha) as [q Hq].
  eexists. split; [exact Hq|].
  destruct (subir2_kwargs_lookup w a q) as (Hi & Hrest).
  split; [|exact Hrest]. eexists. exact Hi.
Qed.

Lemma subir2_sends_what_was_given_witness :
  ∃ kw,
    uploads (run (subir2.main (sample_world accepting) empty_values_argv)).2
      = [kw] ∧
    kw !! "num_retry_uploads" = Some (VInt (-1)) ∧
    kw !! "batch_name" = Some (VStr "") ∧
    kw !! "split" = None ∧
    kw !! "tag_names" = Some (VStrs []) ∧
    kw !! "sequence_size" = Some (VInt 0).
Proof.
  destruct (subir2_sends_what_was_given (sample_world accepting)
              empty_values_argv (or_introl eq_refl))
    as (kw & Hu & _ & Hr & Hb & Hs & Ht & _ & Hz & _).
  exists kw. split; [exact Hu|]. split; [exact Hr|]. split; [exact Hb|].
  split; [exact Hs|]. split; [exact Ht|exact Hz].
Defined.

Lemma truthy_choice (c : option subir2.choice) :
  Py.truthy (subir2.choice_str <$> c) = (if c is Some _ then true else false).
Proof. by destruct c as [[]|]. Qed.

(** X13. Before the upload subir2.py shows the split whenever one was
    given, the batch name only when it is non-empty, the tags only when
    there is at least one, and the sequence whenever a sequence number was
    given, with [¿desconocido?] in place of a size that is missing or [0]. *)
Theorem subir2_shows_non_empty_options (w : world) (a : subir2.argv) :
  exit_status (run (subir2.main w a)).1 = 0 ∨
  exit_status (run (subir2.main w a)).1 = 7 →
  let out := stdout (run (subir2.main w a)).2 in
  count (String.prefix "- Batch:") out =
    (if Py.truthy (subir2.flag_batch_name a) then 1%nat else 0%nat) ∧
  count (String.prefix "- Split:") out =
    (if subir2.flag_split a is Some _ then 1%nat else 0%nat) ∧
  count (String.prefix "- Tags:") out =
    (if subir2.nonempty_list (subir2.flag_tags a) then 1%nat else 0%nat) ∧
  count (String.prefix "- Secuencia:") out =
    (if subir2.flag_seq_num a is Some _ then 1%nat else 0%nat) ∧
  (∀ k, subir2.flag_seq_num a = Some k →
        ("- Secuencia: " +:+ subir2.str_int k +:+ "/" +:+
         subir2.int_or (subir2.flag_seq_size a) "¿desconocido?") ∈ out).
Proof.
  replace (if subir2.flag_split a is Some _ then 1%nat else 0%nat)
    with (if Py.truthy (subir2.choice_str <$> subir2.flag_split a)
          then 1%nat else 0%nat)
    by (rewrite truthy_choice; by destruct (subir2.flag_split a)).
  change (subir2.flag_batch_name a)
    with (subir2.batch_name (subir2.parse_args w a)).
  change (subir2.choice_str <$> subir2.flag_split a)
    with (subir2.split (subir2.parse_args w a)).
  change (subir2.flag_tags a) with (subir2.tags (subir2.parse_args w a)).
  change (subir2.flag_seq_num a)
    with (subir2.sequence_number (subir2.parse_args w a)).
  change (subir2.flag_seq_size a)
    with (subir2.sequence_size (subir2.parse_args w a)).
  unfold run, subir2.main, subir2.get_api_key.
  fold (credential w). generalize (subir2.parse_args w a). intros args.
  subir2_cases w args
    ltac:(first
      [ by intros [|]
      | intros _; repeat (split; [reflexivity|]);
        intros k Hk; first [discriminate Hk | injection Hk as ->];
        repeat first [apply list_elem_of_here | apply list_elem_of_further] ]).
Qed.

Lemma subir2_shows_non_empty_options_witness :
  let out :=
    stdout (run (subir2.main (sample_world accepting) empty_values_argv)).2 in
  count (String.prefix "- Batch:") out = 0%nat ∧
  count (String.prefix "- Tags:") out = 0%nat ∧
  "- Secuencia: 0/¿desconocido?" ∈ out.
Proof.
  destruct (subir2_shows_non_empty_options (sample_world accepting)
              empty_values_argv (or_introl eq_refl))
    as (Hb & _ & Ht & _ & Hs).
  split; [exact Hb|]. split; [exact Ht|]. exact (Hs 0 eq_refl).
Defined.

(** X14. After an upload that returned, subir2.py prints the answer, and
    then the link of the image when the answer is a dictionary that holds
    a non-empty one: the link of its [image] entry, or else its own. *)
Theorem subir2_prints_link (w : world) (a : subir2.argv) :
  exit_status (run (subir2.main w a)).1 = 0 →
  ∃ kw,
    uploads (run (subir2.main w a)).2 = [kw] ∧
    match client_upload (remote w) 0 kw with
    | inl _ => False
    | inr (RespOther text) =>
        last (stdout (run (subir2.main w a)).2)
          = Some ("Respuesta del servidor: " +:+ text)
    | inr (RespDict text image_link link) =>
        last (stdout (run (subir2.main w a)).2) =
          Some (if Py.truthy image_link
                then "URL de la imagen en Roboflow: " +:+ default "" image_link
                else if Py.truthy link
                then "URL de la imagen en Roboflow: " +:+ default "" link
                else "Respuesta del servidor: " +:+ text)
    | inr (RespImageOther _ _) => False
    end.
Proof.
  unfold run, subir2.main, subir2.get_api_key.
  fold (credential w). generalize (subir2.parse_args w a). intros args.
  py_step.
  destruct (Py.truthy (credential w)); simpl; [|discriminate].
  destruct (Py.truthy (subir2.workspace args)); simpl; [|discriminate].
  destruct (Py.truthy (subir2.project args)); simpl; [|discriminate].
  destruct (expanduser w _) as [ex|]; simpl; [|discriminate].
  destruct (exists_ (root w) _); simpl; [|discriminate].
  destruct (is_file (root w) _); simpl; [|discriminate].
  destruct (client_init (remote w) _) as [?|[]]; simpl; [discriminate|].
  destruct (client_workspace (remote w) _) as [?|?]; simpl; [discriminate|].
  destruct (client_project (remote w) _) as [?|[]]; simpl; [discriminate|].
  destruct (Py.truthy (subir2.batch_name args)); simpl;
    destruct (Py.truthy (subir2.split args)); simpl;
    destruct (subir2.nonempty_list (subir2.tags args)); simpl;
    destruct (subir2.sequence_number args); simpl;
    (destruct (client_upload (remote w) 0 _)
       as [?|[text|text il l|text err]] eqn:Hans; simpl;
     [discriminate
     |intros _; eexists; split; [reflexivity|]; rewrite Hans; reflexivity
     |
     |discriminate]);
    unfold Py.or_;
    destruct (Py.truthy il) eqn:Hil; simpl; rewrite ?Hil; simpl;
    try (intros _; eexists; split; [reflexivity|]; rewrite Hans, ?Hil;
         reflexivity);
    destruct (Py.truthy l) eqn:Hl; simpl; rewrite ?Hl;
    intros _; eexists; (split; [reflexivity|]); rewrite Hans, ?Hil, ?Hl;
    reflexivity.
Qed.

Lemma subir2_prints_link_witness :
  last (stdout (run (subir2.main (sample_world linking) sample_argv)).2)
    = Some "URL de la imagen en Roboflow: https://app/x".
Proof.
  destruct (subir2_prints_link (sample_world linking) sample_argv eq_refl)
    as (kw & _ & H).
  exact H.
Defined.

(** ** The exit status of subir2.py *)

Lemma is_file_exists (fs : node) (p : path) :
  exists_ fs p = false → is_file fs p = false.
Proof. unfold exists_, is_file. by destruct (resolve fs p). Qed.

(** X8. The exit status of subir2.py follows its checks in order: [2]
    without a credential, without a workspace or without a project, [1]
    when the home directory of a [~] image path cannot be determined, [3]
    when the image path, expanded and made absolute, is not a regular
    file, [4], [5], [6] when the client, the workspace or the project
    cannot be obtained, each without any upload call; otherwise exactly
    one upload call is made, and the status is [7] when it raises or when
    the [image] entry of its answer is not a dictionary, and [0] in every
    other case.  A command line that [argparse] refuses ends with status
    [2], a request for help with status [0], neither doing anything
    else. *)
Theorem subir2_exit_status (w : world) (a : subir2.argv) :
  match early_exit w a with
  | Some c =>
      exit_status (run (subir2.main w a)).1 = c ∧
      uploads (run (subir2.main w a)).2 = []
  | None =>
      ∃ kw, uploads (run (subir2.main w a)).2 = [kw] ∧
            exit_status (run (subir2.main w a)).1 =
              upload_exit (client_upload (remote w) 0 kw)
  end ∧
  run (subir2.cli w (subir2.Accepted a)) = run (subir2.main w a) ∧
  (∀ usage message,
     run (subir2.cli w (subir2.Refused usage message)) =
       (Exit 2, [EStderr usage; EStderr message])) ∧
  (∀ text, run (subir2.cli w (subir2.Help text)) = (Exit 0, [EStdout text])).
Proof.
  split; [|by repeat split].
  unfold early_exit. cbv zeta beta.
  change (match subir2.flag_workspace a with
          | Some s => Some s
          | None => environ w !! "ROBOFLOW_WORKSPACE"
          end) with (subir2.workspace (subir2.parse_args w a)).
  change (match subir2.flag_project a with
          | Some s => Some s
          | None => environ w !! "ROBOFLOW_PROJECT"
          end) with (subir2.project (subir2.parse_args w a)).
  change (subir2.flag_image a) with (subir2.image (subir2.parse_args w a)).
  unfold run, subir2.main, subir2.get_api_key.
  fold (credential w). generalize (subir2.parse_args w a). intros args.
  py_step.
  destruct (Py.truthy (credential w)); simpl; [|by split].
  destruct (Py.truthy (subir2.workspace args)); simpl; [|by split].
  destruct (Py.truthy (subir2.project args)); simpl; [|by split].
  destruct (expanduser w _) as [ex|]; simpl; [|by split].
  destruct (exists_ (root w) _) eqn:He; simpl.
  2:{ rewrite (is_file_exists _ _ He). by split. }
  destruct (is_file (root w) _); simpl; [|by split].
  destruct (client_init (remote w) _) as [?|[]]; simpl; [by split|].
  destruct (client_workspace (remote w) _) as [?|?]; simpl; [by split|].
  destruct (client_project (remote w) _) as [?|[]]; simpl; [by split|].
  destruct (Py.truthy (subir2.batch_name args)); simpl;
  destruct (Py.truthy (subir2.split args)); simpl;
  destruct (subir2.nonempty_list (subir2.tags args)); simpl;
  destruct (subir2.sequence_number args); simpl;
  destruct (client_upload (remote w) 0 _) as [?|[?|? il l|? ?]] eqn:Hans;
    simpl;
  try (destruct (Py.truthy (Py.or_ il l)); simpl);
  (eexists; split; [reflexivity|]; rewrite Hans; reflexivity).
Qed.

(** ** The images a batch run sends, in order *)

(** The opening shared by both batch scripts, when it succeeds. *)
Lemma batch_setup_success (w : world) (e : exn) (ws pj : option string)
    (loop : M unit) (name : string) :
  Py.truthy (credential w) = true →
  client_init (remote w) (credential w) = inr tt →
  client_workspace (remote w) ws = inr name →
  client_project (remote w) pj = inr tt →
  run (bind load_dotenv (λ _,
         if negb (Py.truthy (credential w)) then raise e
         else bind (Roboflow w (credential w)) (λ _,
              bind (rf_workspace w ws) (λ _,
              bind (workspace_project w pj) (λ _, loop))))) =
    ((loop 0%nat).1,
     [ELoadDotenv; ERoboflow (credential w); EWorkspace ws; EProject pj]
       ++ (loop 0%nat).2).
Proof.
  intros Hk Hi Hw Hp. unfold run. py_step. rewrite Hk. simpl.
  rewrite Hi. simpl. rewrite Hw. simpl. rewrite Hp. simpl.
  destruct (loop 0%nat) as [r d]. reflexivity.
Qed.

Lemma img_items_image_paths (w : world) ss n xs :
  img_etiquetas.items w ss n xs →
  (λ kw : kwargs, kw !! "image_path") <$> xs.*1.*2 =
    (λ p, Some (VStr (str p))) <$> xs.*1.*1.
Proof.
  intros Hit. apply list_eq. intros i.
  rewrite !list_lookup_fmap.
  destruct (xs !! i) as [x|] eqn:Hx; [|reflexivity]. simpl.
  destruct (Hit i x Hx) as (s & _ & -> & _).
  f_equal; apply img_request_lookup.
Qed.

Lemma subir_items_image_paths (w : world) ss n xs :
  subir.items w ss n xs →
  (λ kw : kwargs, kw !! "image_path") <$> xs.*1.*2 =
    (λ p, Some (VStr (str p))) <$> xs.*1.*1.
Proof.
  intros Hit. apply list_eq. intros i.
  rewrite !list_lookup_fmap.
  destruct (xs !! i) as [x|] eqn:Hx; [|reflexivity]. simpl.
  destruct (Hit i x Hx) as (s & _ & -> & _).
  f_equal; apply subir_request_lookup.
Qed.

(** X15. When the credential is set and the client, the workspace and the
    project are obtained, a run of either batch script sends exactly the
    images it discovers, one call each, in the order of the splits
    [train], [valid], [test] and of the directory scan within each, and
    whatever the uploads answer: subir.py then always runs to its end, and
    img_etiquetas.py does when no image path is a regular file. *)
Theorem batch_run_sends_discovered_in_order (w : world) (name : string) :
  Py.truthy (credential w) = true →
  client_init (remote w) (credential w) = inr tt →
  client_workspace (remote w) (Some "deteccion-h92uo") = inr name →
  client_project (remote w) (Some "humo_detecter-cuzoe") = inr tt →
  (image_paths (run (img_etiquetas.main w)).2 =
     (λ p, Some (VStr (str p))) <$>
       img_etiquetas.discovered (fs w) img_etiquetas.SPLITS ∧
   ((∀ s, s ∈ img_etiquetas.SPLITS →
          resolve (fs w) (Path s.2.1) ≠ Some File) →
    exit_status (run (img_etiquetas.main w)).1 = 0)) ∧
  (image_paths (run (subir.main w)).2 =
     (λ p, Some (VStr (str p))) <$> subir.discovered (fs w) subir.splits ∧
   exit_status (run (subir.main w)).1 = 0).
Proof.
  intros Hk Hi Hw Hp. unfold image_paths. split.
  - unfold img_etiquetas.main.
    rewrite (batch_setup_success w _ _ _ _ name Hk Hi Hw Hp).
    destruct (img_outer_loop w img_etiquetas.SPLITS 0)
      as (r & d & xs & Hfor & Hd & Hxs & Hit & _ & Hr).
    rewrite Hfor. simpl.
    rewrite (served_uploads d xs Hd), (img_items_image_paths w _ _ _ Hit), Hxs.
    split; [reflexivity|]. intros Hnf. by rewrite (Hr Hnf).
  - unfold subir.main.
    rewrite (batch_setup_success w _ _ _ _ name Hk Hi Hw Hp).
    destruct (subir_outer_loop w subir.splits 0)
      as (d & xs & Hfor & Hd & Hxs & Hit & _).
    rewrite Hfor. simpl.
    rewrite (served_uploads d xs Hd), (subir_items_image_paths w _ _ _ Hit), Hxs.
    split; reflexivity.
Qed.

Lemma batch_run_sends_discovered_in_order_witness :
  image_paths (run (img_etiquetas.main (sample_world rejecting_uploads))).2 =
    [Some (VStr "data/train/images/a.jpg");
     Some (VStr "data/train/images/b.png")] ∧
  image_paths (run (subir.main (sample_world rejecting_uploads))).2 =
    [Some (VStr "data/train/images/a.jpg")].
Proof.
  destruct (batch_run_sends_discovered_in_order (sample_world rejecting_uploads)
              "workspace" eq_refl eq_refl eq_refl eq_refl)
    as [[H1 _] [H2 _]].
  split; [exact H1|exact H2].
Defined.
